(** * flowPy: steady one-dimensional pressure drop along a serial flow network

    A shallow embedding of the Python sources

      - [flowpy/pdrop_funcs.py]              geometry functions
      - [flowpy/loss_utils.py]               loss-coefficient correlations
      - [flowpy/flow_network_components.py]  Inlet, Outlet, Junction, Pipe, Network
      - [flowpy/network_builder.py]          registries, resolve_refs, build_network

    Conventions of the embedding.

      - A Python [float] is an IEEE binary64 number: Rocq's primitive [float].
        The element classes and the library functions are read at their
        annotated types ([float], [str]); a YAML number is a [float].
      - A Python [str] is a [string] whose characters are the code points
        below 256.
      - An exception is a value of [exn]; a computation that may raise
        returns [result].  A method that assigns to [self] threads the
        object explicitly and keeps the assignments made before a raise.
      - A [dict] is an association list in insertion order.
      - Two library functions are parameters of the code that calls them:
        [float_pow], C's [pow], to which CPython hands the operands of
        [x ** y], and [np_interp], NumPy's [interp].  Nothing is assumed
        of what they return; in particular [x ** 2] is not taken to be
        the rounded product [x * x]. *)

From Stdlib Require Import String Ascii List Bool Arith Lia PrimFloat.
From Stdlib Require Import DecimalString.
From Stdlib Require Import SpecFloat FloatAxioms.
Import ListNotations.

Set Implicit Arguments.
#[local] Set Warnings "-inexact-float,-register-all".

Open Scope string_scope.
Open Scope nat_scope.

(** ** The Python fragment the sources rely on *)

Module Py.

(** Exceptions.  The payload is the message for the [raise] statements of
    the sources (without the [repr] of an object where an f-string embeds
    one), the missing key for a failed [dict] lookup, and CPython's text
    otherwise. *)
Inductive exn : Type :=
| ValueError (msg : string)
| KeyError (msg : string)
| IndexError (msg : string)
| TypeError (msg : string)
| AttributeError (msg : string)
| ZeroDivisionError (msg : string)
| OverflowError (msg : string).

Inductive result (A : Type) : Type :=
| Ok (a : A)
| Raise (e : exn).

Arguments Ok {A} a.
Arguments Raise {A} e.

Definition bind {A B : Type} (c : result A) (k : A -> result B) : result B :=
  match c with
  | Ok a => k a
  | Raise e => Raise e
  end.

Declare Scope py_scope.
Delimit Scope py_scope with py.
Notation "x <- c ;; k" := (bind c (fun x => k))
  (at level 61, c at next level, right associativity) : py_scope.

Definition is_ok {A : Type} (c : result A) : bool :=
  match c with Ok _ => true | Raise _ => false end.

Definition is_ValueError {A : Type} (c : result A) : bool :=
  match c with Raise (ValueError _) => true | _ => false end.

Definition is_KeyError {A : Type} (c : result A) : bool :=
  match c with Raise (KeyError _) => true | _ => false end.

Definition is_IndexError {A : Type} (c : result A) : bool :=
  match c with Raise (IndexError _) => true | _ => false end.

Definition is_ZeroDivisionError {A : Type} (c : result A) : bool :=
  match c with Raise (ZeroDivisionError _) => true | _ => false end.


(** *** float *)

(** [x / y] on floats: a zero divisor (of either sign) raises. *)
Definition div (x y : float) : result float :=
  if is_zero y then Raise (ZeroDivisionError "float division by zero")
  else Ok (x / y)%float.

(** [x ** 2] on floats: CPython hands the operands to C's [pow], here the
    parameter [float_pow], and raises [OverflowError] when a finite base
    gives an infinite result.  What [pow] returns is the library's business:
    it need not be the rounded product [x * x]. *)
Definition pow2 (float_pow : float -> float -> float) (x : float)
  : result float :=
  let r := float_pow x 2.0%float in
  if is_finite x && is_infinity r
  then Raise (OverflowError "(34, 'Numerical result out of range')")
  else Ok r.

(** [math.pi] *)
Definition pi : float := 0x1.921fb54442d18p+1%float.

(** The builtins [min(a, b)] and [max(a, b)]: the first argument is kept
    unless the second is strictly smaller (larger). *)
Definition min (a b : float) : float := if (b <? a)%float then b else a.
Definition max (a b : float) : float := if (a <? b)%float then b else a.

(** *** str *)

(** [str.isspace] on the code points below 256. *)
Definition isspace (c : ascii) : bool :=
  let n := nat_of_ascii c in
  ((9 <=? n) && (n <=? 13)) || ((28 <=? n) && (n <=? 32))
  || (n =? 133) || (n =? 160).

Fixpoint lstrip (s : string) : string :=
  match s with
  | EmptyString => EmptyString
  | String c s' => if isspace c then lstrip s' else s
  end.

Fixpoint rstrip (s : string) : string :=
  match s with
  | EmptyString => EmptyString
  | String c s' =>
      match rstrip s' with
      | EmptyString => if isspace c then EmptyString else String c EmptyString
      | r => String c r
      end
  end.

(** [s.strip()] *)
Definition strip (s : string) : string := rstrip (lstrip s).

(** [str.lower] on one code point below 256: A-Z, and the accented capitals
    0xC0-0xDE except the multiplication sign 0xD7. *)
Definition lower_char (c : ascii) : ascii :=
  let n := nat_of_ascii c in
  if ((65 <=? n) && (n <=? 90))
     || ((192 <=? n) && (n <=? 222) && negb (n =? 215))
  then ascii_of_nat (n + 32) else c.

(** [s.lower()] *)
Fixpoint lower (s : string) : string :=
  match s with
  | EmptyString => EmptyString
  | String c s' => String (lower_char c) (lower s')
  end.

(** [v.startswith(p)] *)
Definition startswith (v p : string) : bool := String.prefix p v.

(** [v.endswith(p)] *)
Definition endswith (v p : string) : bool :=
  let n := String.length v in
  let m := String.length p in
  (m <=? n) && String.eqb (String.substring (n - m) m v) p.

(** [v[i:-1]], for [i <= len(v) - 1] *)
Definition slice_to_last (i : nat) (v : string) : string :=
  String.substring i (String.length v - 1 - i) v.

(** *** dict *)

Definition dict (V : Type) : Type := list (string * V).

(** [d[k]] as an option; [None] is the [KeyError] case. *)
Fixpoint get {V : Type} (d : dict V) (k : string) : option V :=
  match d with
  | [] => None
  | (k', v) :: d' => if String.eqb k' k then Some v else get d' k
  end.

(** [d[k]] *)
Definition getitem {V : Type} (d : dict V) (k : string) : result V :=
  match get d k with
  | Some v => Ok v
  | None => Raise (KeyError k)
  end.

(** [d[k] = v]: an existing key keeps its place, a new one goes last. *)
Fixpoint setitem {V : Type} (d : dict V) (k : string) (v : V) : dict V :=
  match d with
  | [] => [(k, v)]
  | (k', v') :: d' =>
      if String.eqb k' k then (k, v) :: d' else (k', v') :: setitem d' k v
  end.

(** A key a mapping of the specification may lack. *)
Definition key_of {V : Type} (o : option V) (k : string) : result V :=
  match o with
  | Some v => Ok v
  | None => Raise (KeyError k)
  end.

(** [l[-1]] *)
Definition last_item {A : Type} (l : list A) : result A :=
  match rev l with
  | x :: _ => Ok x
  | [] => Raise (IndexError "list index out of range")
  end.

(** [str(n)] of a non-negative [int] *)
Definition str_of_nat (n : nat) : string :=
  NilEmpty.string_of_uint (Nat.to_uint n).

(** *** Objects and calls *)

(** The values a YAML document gives a descriptor entry or a function
    parameter: a number, a string, null, or a function-call mapping
    [{func: ..., params: {...}}]. *)
Inductive value : Type :=
| VNum (x : float)
| VStr (s : string)
| VNone
| VCall (func : string) (params : list (string * value)).

(** A function of a registry, called as [f( **kwargs )]. *)
Definition callable : Type := dict value -> result value.

(** A numeric argument.  A function annotated [float] that is handed
    another object fails with [TypeError]; the embedding reports it where
    the argument is bound. *)
Definition as_float (v : value) : result float :=
  match v with
  | VNum x => Ok x
  | _ => Raise (TypeError "unsupported operand type(s)")
  end.

(** A string argument, likewise: [flow_direction.strip()] on another
    object fails with [AttributeError]. *)
Definition as_str (v : value) : result string :=
  match v with
  | VStr s => Ok s
  | _ => Raise (AttributeError "object has no attribute 'strip'")
  end.

(** Keyword binding: every keyword names a parameter, and every parameter
    is given. *)
Fixpoint unexpected (names : list string) (kw : dict value) : bool :=
  match kw with
  | [] => false
  | (k, _) :: kw' =>
      negb (existsb (String.eqb k) names) || unexpected names kw'
  end.

Definition arg (kw : dict value) (n : string) : result float :=
  match get kw n with
  | Some v => as_float v
  | None => Raise (TypeError ("missing a required argument: '" ++ n ++ "'"))
  end.

Definition check_keywords (names : list string) (kw : dict value)
  : result unit :=
  if unexpected names kw
  then Raise (TypeError "got an unexpected keyword argument")
  else Ok tt.

Definition call0 (f : result float) : callable := fun kw =>
  (_ <- check_keywords [] kw ;;
   r <- f ;; Ok (VNum r))%py.

Definition call1 (n1 : string) (f : float -> result float) : callable :=
  fun kw =>
  (_ <- check_keywords [n1] kw ;;
   a1 <- arg kw n1 ;;
   r <- f a1 ;; Ok (VNum r))%py.

Definition call2 (n1 n2 : string) (f : float -> float -> result float)
  : callable := fun kw =>
  (_ <- check_keywords [n1; n2] kw ;;
   a1 <- arg kw n1 ;; a2 <- arg kw n2 ;;
   r <- f a1 a2 ;; Ok (VNum r))%py.

Definition call3 (n1 n2 n3 : string)
  (f : float -> float -> float -> result float) : callable := fun kw =>
  (_ <- check_keywords [n1; n2; n3] kw ;;
   a1 <- arg kw n1 ;; a2 <- arg kw n2 ;; a3 <- arg kw n3 ;;
   r <- f a1 a2 a3 ;; Ok (VNum r))%py.

Definition call4 (n1 n2 n3 n4 : string)
  (f : float -> float -> float -> float -> result float) : callable :=
  fun kw =>
  (_ <- check_keywords [n1; n2; n3; n4] kw ;;
   a1 <- arg kw n1 ;; a2 <- arg kw n2 ;; a3 <- arg kw n3 ;;
   a4 <- arg kw n4 ;;
   r <- f a1 a2 a3 a4 ;; Ok (VNum r))%py.

End Py.

Import Py.

Open Scope py_scope.

(** ** flowpy/pdrop_funcs.py: the geometry functions *)

Module pdrop_funcs.
Section Geometry.

(** C's [pow], behind [x ** 2]. *)
Variable float_pow : float -> float -> float.

Definition area_circle (D : float) : result float :=
  if (D <? 0)%float then Raise (ValueError "D must be non-negative.")
  else D2 <- Py.pow2 float_pow D ;; Ok (pi * D2 / 4.0)%float.

Definition area_rectangle (L w : float) : result float :=
  if (L <? 0)%float || (w <? 0)%float
  then Raise (ValueError "L and w must be non-negative.")
  else Ok (L * w)%float.

Definition area_capsule_slot (b L : float) : result float :=
  if (b <? 0)%float || (L <? 0)%float
  then Raise (ValueError "b and L must be non-negative.")
  else r <- area_rectangle L b ;; c <- area_circle b ;; Ok (r + c)%float.

Definition area_annulus (D_outer D_inner : float) : result float :=
  o2 <- Py.pow2 float_pow D_outer ;;
  i2 <- Py.pow2 float_pow D_inner ;;
  Ok (pi * (o2 - i2) / 4.0)%float.

Definition wetted_perimeter_circle (D : float) : result float :=
  Ok (pi * D)%float.

Definition hydraulic_diameter_annulus (D_outer D_inner : float) : result float :=
  Ok (pi * (D_outer + D_inner))%float.

Definition hydraulic_diameter_generic (A P_w : float) : result float :=
  Py.div (4.0 * A)%float P_w.

Definition hydraulic_diameter_circle (D : float) : result float :=
  Ok D.

Definition hydraulic_diameter_annulus_concentric (D_outer D_inner : float)
  : result float :=
  Ok (D_outer - D_inner)%float.

Definition hydraulic_diameter_rect_slot (a b : float) : result float :=
  Py.div (2.0 * a * b)%float (a + b)%float.

Definition hydraulic_diameter_capsule_slot (b L : float) : result float :=
  b2 <- Py.pow2 float_pow b ;;
  let A := (b * L + pi * b2 / 4.0)%float in
  let Pw := (2.0 * L + pi * b)%float in
  Py.div (4.0 * A)%float Pw.

End Geometry.
End pdrop_funcs.

(** ** flowpy/loss_utils.py: the loss-coefficient correlations *)

Module loss_utils.
Section Correlations.

(** Two library functions the correlations call: [float(np.interp(x, xp, fp))]
    of NumPy, and C's [pow] behind [x ** 0.75] and [x ** 2]. *)
Variable np_interp : float -> list float -> list float -> float.
Variable float_pow : float -> float -> float.

Definition sudden_contraction (inlet_area outlet_area : float)
  : result float :=
  if (inlet_area <=? 0)%float || (outlet_area <=? 0)%float
  then Raise (ValueError "Areas must be positive.")
  else
    q <- Py.div outlet_area inlet_area ;;
    let r := Py.max 0.0 (Py.min 1.0 q) in
    let x := [0.0; 0.2; 0.4; 0.6; 0.8; 0.9; 1.0]%float in
    let y := [1.00; 0.85; 0.68; 0.503; 0.300; 0.178; 0.00]%float in
    Ok (np_interp r x y).

Definition free_discharge : result float := Ok 1.0%float.

Definition sudden_expansion (inlet_area outlet_area : float)
  : result float :=
  q <- Py.div inlet_area outlet_area ;;
  Py.pow2 float_pow (1 - q)%float.

Definition f_annulus_turbulent (lambda_circ D_outer D_inner : float)
  : result float :=
  if (D_outer <=? 0.0)%float || (D_inner <=? 0.0)%float
  then Raise (ValueError "Diameters must be positive.")
  else if negb (D_inner <? D_outer)%float
  then Raise (ValueError "Require D_inner < D_outer for a concentric annulus.")
  else if (lambda_circ <=? 0.0)%float
  then Raise (ValueError "lambda_circ must be positive.")
  else
    r <- Py.div D_inner D_outer ;;
    il <- Py.div 1.0 lambda_circ ;;
    let inv_lambda_ann := ((0.02 * r + 0.98) * (il - 0.27 * r + 0.1))%float in
    if (inv_lambda_ann <=? 0.0)%float
    then Raise (ValueError
      "Computed 1/lambda_ann <= 0; check inputs (Re, roughness, diameters).")
    else Py.div 1.0 inv_lambda_ann.

Definition sharp_thick_inlet_facing_baffle
  (baffle_gap hydraulic_diameter : float) : result float :=
  if (hydraulic_diameter <=? 0.0)%float
  then Raise (ValueError "hydraulic_diameter must be > 0.")
  else
    let k_prime := 0.5%float in
    let h_hydraulic_diameter_vals :=
      [0.20; 0.30; 0.40; 0.50; 0.60; 0.70; 0.80; 1.00]%float in
    let sigma_1_vals :=
      [1.60; 0.65; 0.37; 0.25; 0.15; 0.07; 0.04; 0.00]%float in
    r <- Py.div baffle_gap hydraulic_diameter ;;
    let sigma1 :=
      if (1.0 <=? r)%float then 0.0%float
      else np_interp r h_hydraulic_diameter_vals sigma_1_vals in
    Ok (k_prime + sigma1)%float.

Definition discharge_from_straight_tube_to_baffle
  (baffle_gap hydraulic_diameter : float) : result float :=
  if (hydraulic_diameter <=? 0.0)%float
  then Raise (ValueError "hydraulic_diameter must be > 0.")
  else
    r <- Py.div baffle_gap hydraulic_diameter ;;
    let h_over_D := [0.50; 0.60; 0.70; 1.00]%float in
    let zeta := [1.37; 1.20; 1.11; 1.00]%float in
    Ok (np_interp r h_over_D zeta).

Definition smooth_cone_diffuser_nar1 (diverging_angle : float)
  : result float :=
  let alpha := [3; 4; 6; 8; 10; 12; 14; 16; 20; 30; 45; 60; 90; 120]%float in
  let zeta :=
    [0.120; 0.106; 0.090; 0.083; 0.080; 0.088; 0.102; 0.122; 0.196; 0.298;
     0.297; 0.286; 0.283; 0.279]%float in
  Ok (np_interp diverging_angle alpha zeta).

(** [beveled_contraction_alpha60] and [beveled_contraction_alpha140] have
    one body and differ in the table [y]. *)
Definition beveled_contraction (y : list float)
  (bevel_length hydraulic_diameter inlet_area outlet_area : float)
  : result float :=
  if (inlet_area <=? 0.0)%float || (outlet_area <=? 0.0)%float
  then Raise (ValueError "Areas must be positive.")
  else
    r <- Py.div outlet_area inlet_area ;;
    if negb ((0.0 <? r)%float && (r <=? 1.0)%float)
    then Raise (ValueError "outlet_area / inlet_area must be in (0, 1].")
    else
      let x := [0.025; 0.050; 0.075; 0.10; 0.15; 0.60]%float in
      l <- Py.div bevel_length hydraulic_diameter ;;
      let zeta_pp := np_interp l x y in
      Ok (zeta_pp * float_pow (1.0 - r) 0.75)%float.

Definition beveled_contraction_alpha60 :=
  beveled_contraction [0.40; 0.30; 0.23; 0.18; 0.15; 0.12]%float.

Definition beveled_contraction_alpha140 :=
  beveled_contraction [0.45; 0.42; 0.40; 0.38; 0.37; 0.36]%float.

End Correlations.
End loss_utils.

(** ** flowpy/flow_network_components.py: the element data model *)

(** A method body that assigns to [self]: the object goes in, and the object
    with the assignments made so far comes out next to the result. *)
Module Method.

Definition t (S A : Type) : Type := S -> result A * S.

Definition bind {S A B : Type} (c : t S A) (k : A -> t S B) : t S B :=
  fun self =>
    match c self with
    | (Ok a, self') => k a self'
    | (Raise e, self') => (Raise e, self')
    end.

(** An expression over [self], without assignment. *)
Definition eval {S A : Type} (e : S -> result A) : t S A :=
  fun self => (e self, self).

(** [self.f = e] *)
Definition assign {S A : Type} (set : A -> S -> S) (e : S -> result A)
  : t S unit :=
  fun self =>
    match e self with
    | Ok a => (Ok tt, set a self)
    | Raise x => (Raise x, self)
    end.

(** Reading an attribute declared [field(init=False)]: unset until
    assigned. *)
Definition attr {A : Type} (n : string) (f : option A) : result A :=
  match f with
  | Some a => Ok a
  | None => Raise (AttributeError ("object has no attribute '" ++ n ++ "'"))
  end.

(** The dataclass [__init__] followed by [__post_init__]: the caller gets
    the object only when the method returns. *)
Definition construct {S : Type} (self : S) (post_init : t S unit)
  : result S :=
  match post_init self with
  | (Ok _, self') => Ok self'
  | (Raise e, _) => Raise e
  end.

End Method.

Declare Scope method_scope.
Delimit Scope method_scope with method.
Notation "x <~ c ;; k" := (Method.bind c (fun x => k))
  (at level 61, c at next level, right associativity) : method_scope.
Notation "c ;;; k" := (Method.bind c (fun _ => k))
  (at level 61, right associativity) : method_scope.

(** [class HasOutletPressure(Protocol)], read the way the elements read it:
    [getattr(upstream, "outlet_pressure", None)]. *)
Class HasOutletPressure (U : Type) : Type :=
  get_outlet_pressure : U -> option float.

Module Inlet.

Record t : Type := mk {
  name : string;
  outlet_pressure : option float;
  mass_flow_rate : float;
  density : float;
  temperature : float
}.

End Inlet.

Module Outlet.

Record t (U : Type) : Type := mk {
  name : string;
  last_node : U
}.

End Outlet.

Module Junction.
Section WithUpstream.

Context {U : Type} `{HasOutletPressure U}.

(** C's [pow], behind [x ** 2]. *)
Variable float_pow : float -> float -> float.

Record t : Type := mk {
  name : string;
  ref_area : float;
  form_loss : float;
  mass_flow_rate : float;
  density : float;
  upstream : U;
  (* Computed *)
  ref_velocity : option float;
  dp_loss : option float;
  pressure_drop : option float;
  inlet_pressure : option float;
  outlet_pressure : option float
}.

(** The object [__init__] hands to [__post_init__]. *)
Definition init (name : string) (ref_area form_loss mass_flow_rate density : float)
  (upstream : U) : t :=
  mk name ref_area form_loss mass_flow_rate density upstream
     None None None None None.

Definition set_ref_velocity (v : float) (s : t) : t :=
  mk s.(name) s.(ref_area) s.(form_loss) s.(mass_flow_rate) s.(density)
     s.(upstream)
     (Some v) s.(dp_loss) s.(pressure_drop) s.(inlet_pressure)
     s.(outlet_pressure).

Definition set_dp_loss (v : float) (s : t) : t :=
  mk s.(name) s.(ref_area) s.(form_loss) s.(mass_flow_rate) s.(density)
     s.(upstream)
     s.(ref_velocity) (Some v) s.(pressure_drop) s.(inlet_pressure)
     s.(outlet_pressure).

Definition set_pressure_drop (v : float) (s : t) : t :=
  mk s.(name) s.(ref_area) s.(form_loss) s.(mass_flow_rate) s.(density)
     s.(upstream)
     s.(ref_velocity) s.(dp_loss) (Some v) s.(inlet_pressure)
     s.(outlet_pressure).

Definition set_inlet_pressure (v : float) (s : t) : t :=
  mk s.(name) s.(ref_area) s.(form_loss) s.(mass_flow_rate) s.(density)
     s.(upstream)
     s.(ref_velocity) s.(dp_loss) s.(pressure_drop) (Some v)
     s.(outlet_pressure).

Definition set_outlet_pressure (v : float) (s : t) : t :=
  mk s.(name) s.(ref_area) s.(form_loss) s.(mass_flow_rate) s.(density)
     s.(upstream)
     s.(ref_velocity) s.(dp_loss) s.(pressure_drop) s.(inlet_pressure)
     (Some v).

Definition upstream_unset : string :=
  "upstream.outlet_pressure must be set before constructing Junction.".

Definition compute : Method.t t unit :=
  (Method.eval (fun self =>
     match get_outlet_pressure self.(upstream) with
     | None => Raise (ValueError upstream_unset)
     | Some _ => Ok tt
     end) ;;;
   (* Reference velocity and loss *)
   Method.assign set_ref_velocity (fun self =>
     Py.div self.(mass_flow_rate) (self.(density) * self.(ref_area))%float) ;;;
   Method.assign set_dp_loss (fun self =>
     v <- Method.attr "ref_velocity" self.(ref_velocity) ;;
     v2 <- Py.pow2 float_pow v ;;
     Ok (self.(form_loss) * 0.5 * self.(density) * v2)%float) ;;;
   Method.assign set_pressure_drop (fun self =>
     Method.attr "dp_loss" self.(dp_loss)) ;;;
   (* Endpoint pressures; [float(x)] of a float is [x] *)
   Method.assign set_inlet_pressure (fun self =>
     Method.attr "outlet_pressure" (get_outlet_pressure self.(upstream))) ;;;
   Method.assign set_outlet_pressure (fun self =>
     p <- Method.attr "inlet_pressure" self.(inlet_pressure) ;;
     d <- Method.attr "pressure_drop" self.(pressure_drop) ;;
     Ok (p - d)%float))%method.

(** [Junction(name=..., ref_area=..., ...)] *)
Definition new (name : string) (ref_area form_loss mass_flow_rate density : float)
  (upstream : U) : result t :=
  Method.construct
    (init name ref_area form_loss mass_flow_rate density upstream) compute.

End WithUpstream.
Arguments t U : clear implicits.
End Junction.

Module Pipe.
Section WithUpstream.

Context {U : Type} `{HasOutletPressure U}.

(** C's [pow], behind [x ** 2]. *)
Variable float_pow : float -> float -> float.

Definition GRAVITY : float := 9.80665%float.

Record t : Type := mk {
  name : string;
  length : float;
  hydraulic_diameter : float;
  friction_factor : float;
  mass_flow_rate : float;
  density : float;
  inlet_area : float;
  outlet_area : float;
  upstream : U;
  ref_area : float;
  flow_direction : string;
  alpha1 : float;
  alpha2 : float;
  (* Computed *)
  inlet_velocity : option float;
  outlet_velocity : option float;
  ref_velocity : option float;
  dp_loss : option float;
  dp_gravity : option float;
  dp_accel : option float;
  pressure_drop : option float;
  inlet_pressure : option float;
  outlet_pressure : option float
}.

(** The object [__init__] hands to [__post_init__]; [alpha1] and [alpha2]
    default to 1.0. *)
Definition init (name : string)
  (length hydraulic_diameter friction_factor mass_flow_rate density
   inlet_area outlet_area : float) (upstream : U) (ref_area : float)
  (flow_direction : string) (alpha1 alpha2 : option float) : t :=
  mk name length hydraulic_diameter friction_factor mass_flow_rate density
     inlet_area outlet_area upstream ref_area flow_direction
     (match alpha1 with Some a => a | None => 1.0%float end)
     (match alpha2 with Some a => a | None => 1.0%float end)
     None None None None None None None None None.

(** [s] with its computed attributes replaced. *)
Definition with_computed (s : t)
  (iv ov rv dl dg da pd ip op : option float) : t :=
  mk s.(name) s.(length) s.(hydraulic_diameter) s.(friction_factor)
     s.(mass_flow_rate) s.(density) s.(inlet_area) s.(outlet_area)
     s.(upstream) s.(ref_area) s.(flow_direction) s.(alpha1) s.(alpha2)
     iv ov rv dl dg da pd ip op.

Definition set_inlet_velocity (v : float) (s : t) : t :=
  with_computed s (Some v) s.(outlet_velocity) s.(ref_velocity) s.(dp_loss)
    s.(dp_gravity) s.(dp_accel) s.(pressure_drop) s.(inlet_pressure)
    s.(outlet_pressure).

Definition set_outlet_velocity (v : float) (s : t) : t :=
  with_computed s s.(inlet_velocity) (Some v) s.(ref_velocity) s.(dp_loss)
    s.(dp_gravity) s.(dp_accel) s.(pressure_drop) s.(inlet_pressure)
    s.(outlet_pressure).

Definition set_ref_velocity (v : float) (s : t) : t :=
  with_computed s s.(inlet_velocity) s.(outlet_velocity) (Some v) s.(dp_loss)
    s.(dp_gravity) s.(dp_accel) s.(pressure_drop) s.(inlet_pressure)
    s.(outlet_pressure).

Definition set_dp_loss (v : float) (s : t) : t :=
  with_computed s s.(inlet_velocity) s.(outlet_velocity) s.(ref_velocity)
    (Some v) s.(dp_gravity) s.(dp_accel) s.(pressure_drop) s.(inlet_pressure)
    s.(outlet_pressure).

Definition set_dp_gravity (v : float) (s : t) : t :=
  with_computed s s.(inlet_velocity) s.(outlet_velocity) s.(ref_velocity)
    s.(dp_loss) (Some v) s.(dp_accel) s.(pressure_drop) s.(inlet_pressure)
    s.(outlet_pressure).

Definition set_dp_accel (v : float) (s : t) : t :=
  with_computed s s.(inlet_velocity) s.(outlet_velocity) s.(ref_velocity)
    s.(dp_loss) s.(dp_gravity) (Some v) s.(pressure_drop) s.(inlet_pressure)
    s.(outlet_pressure).

Definition set_pressure_drop (v : float) (s : t) : t :=
  with_computed s s.(inlet_velocity) s.(outlet_velocity) s.(ref_velocity)
    s.(dp_loss) s.(dp_gravity) s.(dp_accel) (Some v) s.(inlet_pressure)
    s.(outlet_pressure).

Definition set_inlet_pressure (v : float) (s : t) : t :=
  with_computed s s.(inlet_velocity) s.(outlet_velocity) s.(ref_velocity)
    s.(dp_loss) s.(dp_gravity) s.(dp_accel) s.(pressure_drop) (Some v)
    s.(outlet_pressure).

Definition set_outlet_pressure (v : float) (s : t) : t :=
  with_computed s s.(inlet_velocity) s.(outlet_velocity) s.(ref_velocity)
    s.(dp_loss) s.(dp_gravity) s.(dp_accel) s.(pressure_drop)
    s.(inlet_pressure) (Some v).

Definition upstream_unset : string :=
  "For <upstream>, the outlet_pressure must be set before constructing Pipe.".

Definition bad_direction (flow_direction : string) : string :=
  "flow_direction must be 'up', 'down', or 'side' (got "
  ++ flow_direction ++ ")".

(** Lines 361-371: the sign of the hydrostatic term from [flow_direction]. *)
Definition direction_sign (flow_direction : string) : result float :=
  let dir_key := Py.lower (Py.strip flow_direction) in
  if String.eqb dir_key "up" then Ok 1.0%float
  else if String.eqb dir_key "down" then Ok (-1.0)%float
  else if String.eqb dir_key "side" then Ok 0.0%float
  else Raise (ValueError (bad_direction flow_direction)).

Definition compute : Method.t t unit :=
  (Method.eval (fun self =>
     match get_outlet_pressure self.(upstream) with
     | None => Raise (ValueError upstream_unset)
     | Some _ => Ok tt
     end) ;;;
   (* Section velocities *)
   Method.assign set_inlet_velocity (fun self =>
     Py.div self.(mass_flow_rate) (self.(density) * self.(inlet_area))%float) ;;;
   Method.assign set_outlet_velocity (fun self =>
     Py.div self.(mass_flow_rate) (self.(density) * self.(outlet_area))%float) ;;;
   (* Friction (Darcy-Weisbach) using chosen reference velocity *)
   Method.assign set_ref_velocity (fun self =>
     Py.div self.(mass_flow_rate) (self.(density) * self.(ref_area))%float) ;;;
   q_ref <~ Method.eval (fun self =>
     v <- Method.attr "ref_velocity" self.(ref_velocity) ;;
     v2 <- Py.pow2 float_pow v ;;
     Ok (0.5 * self.(density) * v2)%float) ;;
   Method.assign set_dp_loss (fun self =>
     r <- Py.div self.(length) self.(hydraulic_diameter) ;;
     Ok (self.(friction_factor) * r * q_ref)%float) ;;;
   (* Hydrostatic term: set sign from flow_direction *)
   sign <~ Method.eval (fun self => direction_sign self.(flow_direction)) ;;
   Method.assign set_dp_gravity (fun self =>
     Ok (self.(density) * GRAVITY * self.(length) * sign)%float) ;;;
   (* Acceleration term *)
   Method.assign set_dp_accel (fun self =>
     vo <- Method.attr "outlet_velocity" self.(outlet_velocity) ;;
     vo2 <- Py.pow2 float_pow vo ;;
     vi <- Method.attr "inlet_velocity" self.(inlet_velocity) ;;
     vi2 <- Py.pow2 float_pow vi ;;
     Ok (0.5 * self.(density)
         * (self.(alpha2) * vo2 - self.(alpha1) * vi2))%float) ;;;
   (* Totals and endpoints; [float(x)] of a float is [x] *)
   Method.assign set_pressure_drop (fun self =>
     l <- Method.attr "dp_loss" self.(dp_loss) ;;
     g <- Method.attr "dp_gravity" self.(dp_gravity) ;;
     a <- Method.attr "dp_accel" self.(dp_accel) ;;
     Ok (l + g + a)%float) ;;;
   Method.assign set_inlet_pressure (fun self =>
     Method.attr "outlet_pressure" (get_outlet_pressure self.(upstream))) ;;;
   Method.assign set_outlet_pressure (fun self =>
     p <- Method.attr "inlet_pressure" self.(inlet_pressure) ;;
     d <- Method.attr "pressure_drop" self.(pressure_drop) ;;
     Ok (p - d)%float))%method.

(** [Pipe(name, length=..., ...)] *)
Definition new (name : string)
  (length hydraulic_diameter friction_factor mass_flow_rate density
   inlet_area outlet_area : float) (upstream : U) (ref_area : float)
  (flow_direction : string) (alpha1 alpha2 : option float) : result t :=
  Method.construct
    (init name length hydraulic_diameter friction_factor mass_flow_rate
       density inlet_area outlet_area upstream ref_area flow_direction
       alpha1 alpha2)
    compute.

End WithUpstream.
Arguments t U : clear implicits.
End Pipe.

(** The elements of a network.  [upstream] and [last_node] hold the element
    they refer to; no element is assigned to after its construction. *)
Inductive element : Type :=
| EInlet (i : Inlet.t)
| EOutlet (o : Outlet.t element)
| EJunction (j : Junction.t element)
| EPipe (p : Pipe.t element).

#[export] Instance element_outlet_pressure : HasOutletPressure element :=
  fun e =>
    match e with
    | EInlet i => i.(Inlet.outlet_pressure)
    | EOutlet _ => None
    | EJunction j => j.(Junction.outlet_pressure)
    | EPipe p => p.(Pipe.outlet_pressure)
    end.

(** [getattr(e, "inlet_pressure", None)], as [create_summary_df] reads it. *)
Definition element_inlet_pressure (e : element) : option float :=
  match e with
  | EJunction j => j.(Junction.inlet_pressure)
  | EPipe p => p.(Pipe.inlet_pressure)
  | _ => None
  end.

(** The [upstream] of an interior element. *)
Definition element_upstream (e : element) : option element :=
  match e with
  | EJunction j => Some j.(Junction.upstream)
  | EPipe p => Some p.(Pipe.upstream)
  | _ => None
  end.

Definition is_interior (e : element) : bool :=
  match e with
  | EJunction _ | EPipe _ => true
  | _ => false
  end.

(** A cell of the summary: what [getattr(comp, c, None)] gives for an
    attribute that holds a string or a number; [CNone] is [None], the value
    of an attribute that is absent or not yet assigned. *)
Inductive cell : Type :=
| CStr (s : string)
| CNum (x : float)
| CNone.

Definition cell_of (o : option float) : cell :=
  match o with
  | Some x => CNum x
  | None => CNone
  end.

(** The string and number attributes of an element, by name. *)
Definition attributes (comp : element) : dict cell :=
  match comp with
  | EInlet i =>
      [ ("name", CStr i.(Inlet.name));
        ("outlet_pressure", cell_of i.(Inlet.outlet_pressure));
        ("mass_flow_rate", CNum i.(Inlet.mass_flow_rate));
        ("density", CNum i.(Inlet.density));
        ("temperature", CNum i.(Inlet.temperature)) ]
  | EOutlet o => [ ("name", CStr o.(Outlet.name)) ]
  | EJunction j =>
      [ ("name", CStr j.(Junction.name));
        ("ref_area", CNum j.(Junction.ref_area));
        ("form_loss", CNum j.(Junction.form_loss));
        ("mass_flow_rate", CNum j.(Junction.mass_flow_rate));
        ("density", CNum j.(Junction.density));
        ("ref_velocity", cell_of j.(Junction.ref_velocity));
        ("dp_loss", cell_of j.(Junction.dp_loss));
        ("pressure_drop", cell_of j.(Junction.pressure_drop));
        ("inlet_pressure", cell_of j.(Junction.inlet_pressure));
        ("outlet_pressure", cell_of j.(Junction.outlet_pressure)) ]
  | EPipe p =>
      [ ("GRAVITY", CNum Pipe.GRAVITY);
        ("name", CStr p.(Pipe.name));
        ("length", CNum p.(Pipe.length));
        ("hydraulic_diameter", CNum p.(Pipe.hydraulic_diameter));
        ("friction_factor", CNum p.(Pipe.friction_factor));
        ("mass_flow_rate", CNum p.(Pipe.mass_flow_rate));
        ("density", CNum p.(Pipe.density));
        ("inlet_area", CNum p.(Pipe.inlet_area));
        ("outlet_area", CNum p.(Pipe.outlet_area));
        ("ref_area", CNum p.(Pipe.ref_area));
        ("flow_direction", CStr p.(Pipe.flow_direction));
        ("alpha1", CNum p.(Pipe.alpha1));
        ("alpha2", CNum p.(Pipe.alpha2));
        ("inlet_velocity", cell_of p.(Pipe.inlet_velocity));
        ("outlet_velocity", cell_of p.(Pipe.outlet_velocity));
        ("ref_velocity", cell_of p.(Pipe.ref_velocity));
        ("dp_loss", cell_of p.(Pipe.dp_loss));
        ("dp_gravity", cell_of p.(Pipe.dp_gravity));
        ("dp_accel", cell_of p.(Pipe.dp_accel));
        ("pressure_drop", cell_of p.(Pipe.pressure_drop));
        ("inlet_pressure", cell_of p.(Pipe.inlet_pressure));
        ("outlet_pressure", cell_of p.(Pipe.outlet_pressure)) ]
  end.

(** [getattr(comp, c, None)], for a column name [c] of the catalog. *)
Definition getattr (comp : element) (c : string) : cell :=
  match Py.get (attributes comp) c with
  | Some v => v
  | None => CNone
  end.

(** [type(comp).__name__.lower()] *)
Definition comp_kind (comp : element) : string :=
  match comp with
  | EInlet _ => "inlet"
  | EOutlet _ => "outlet"
  | EJunction _ => "junction"
  | EPipe _ => "pipe"
  end.

Module Network.

Record t : Type := mk {
  name : string;
  network_list : list element
}.

(** Column catalog with SI units (order defines default display order);
    the unit of a label is [None]. *)
Definition ALL_COLUMNS : dict (option string) :=
  [ ("name", None);
    ("mass_flow_rate", Some "kg/s");
    ("inlet_velocity", Some "m/s");
    ("outlet_velocity", Some "m/s");
    ("ref_velocity", Some "m/s");
    ("inlet_area", Some "m^2");
    ("outlet_area", Some "m^2");
    ("ref_area", Some "m^2");
    ("length", Some "m");
    ("hydraulic_diameter", Some "m");
    ("friction_factor", Some "-");
    ("form_loss", Some "-");
    ("dp_gravity", Some "kPa");
    ("dp_accel", Some "kPa");
    ("dp_loss", Some "kPa");
    ("inlet_pressure", Some "kPa");
    ("outlet_pressure", Some "kPa");
    ("pressure_drop", Some "kPa");
    ("cumulative_dp", Some "kPa") ].

Definition TYPE_COLUMN : string := "type".

Definition PIPE_COLS : list string :=
  filter (fun c => negb (String.eqb c "form_loss")) (map fst ALL_COLUMNS).

Definition JUNCTION_COLS : list string :=
  [ "name"; "mass_flow_rate"; "ref_velocity"; "ref_area"; "form_loss";
    "dp_loss"; "inlet_pressure"; "outlet_pressure"; "pressure_drop" ].

Definition PLENUM_COLS : list string := [ "name" ].

Definition _column_order_with_type (self : t) : list string :=
  let base := map fst ALL_COLUMNS in
  (firstn 1 base ++ [TYPE_COLUMN] ++ skipn 1 base)%list.

Definition _cols_for_kind (self : t) (comp_kind : string) : list string :=
  let mapping :=
    [ ("pipe", PIPE_COLS); ("junction", JUNCTION_COLS);
      ("inlet", PLENUM_COLS); ("outlet", PLENUM_COLS) ] in
  match Py.get mapping comp_kind with
  | Some cols => cols
  | None => PLENUM_COLS
  end.

(** Lines 93-99 of [create_summary_df]: the columns and the values one
    element writes into its row of the frame. *)
Definition summary_row (self : t) (comp : element)
  : list string * list cell :=
  let comp_kind := comp_kind comp in
  let cols := _cols_for_kind self comp_kind in
  let vals := map (getattr comp) cols in
  let target_cols := (cols ++ [TYPE_COLUMN])%list in
  let target_vals := (vals ++ [CStr comp_kind])%list in
  (target_cols, target_vals).

End Network.

(** ** flowpy/network_builder.py *)

Module network_builder.

(** The module imports the geometry functions under the name [geom_utils];
    their definitions are those of [pdrop_funcs.py]. *)
Definition GEOM_REGISTRY (float_pow : float -> float -> float)
  : dict callable :=
  [ ("area_circle", call1 "D" (pdrop_funcs.area_circle float_pow));
    ("area_annulus",
      call2 "D_outer" "D_inner" (pdrop_funcs.area_annulus float_pow));
    ("hydraulic_diameter_annulus",
      call2 "D_outer" "D_inner" pdrop_funcs.hydraulic_diameter_annulus);
    ("hydraulic_diameter_circle",
      call1 "D" pdrop_funcs.hydraulic_diameter_circle);
    ("hydraulic_diameter_capsule_slot",
      call2 "b" "L" (pdrop_funcs.hydraulic_diameter_capsule_slot float_pow));
    ("area_capsule_slot",
      call2 "b" "L" (pdrop_funcs.area_capsule_slot float_pow)) ].

(** The specification [yaml.safe_load] hands to [build_network]. *)
Record flow_spec : Type := {
  pressure : option float;          (* [None]: a YAML null *)
  mass_flow_rate : float;
  density : float;
  temperature : float
}.

Record ref_area_spec : Type := {
  station : string;
  flow_splits : option float        (* [None]: the key is absent *)
}.

(** One descriptor of [inputs["network"]]; [None] is an absent key. *)
Record descriptor : Type := {
  type : string;
  name : string;
  flow : option flow_spec;
  geom : option (dict value);
  loss : option (dict value);
  ref_area : option ref_area_spec
}.

Record inputs_spec : Type := {
  inputs_name : string;
  network : list descriptor
}.

(** The loop of [resolve_refs] over [func_kwargs.items()], from [out]. *)
Fixpoint resolve_items (items : dict value) (materialized : dict (dict value))
  (spec_type : string) (out : dict value) : result (dict value) :=
  let prefix := "${" ++ spec_type ++ "." in
  match items with
  | [] => Ok out
  | (k, v) :: items' =>
      match v with
      | VStr s =>
          if Py.startswith s prefix && Py.endswith s "}" then
            let key := Py.slice_to_last (String.length prefix) s in
            match (m <- Py.getitem materialized spec_type ;; Py.getitem m key) with
            | Ok x => resolve_items items' materialized spec_type (Py.setitem out k x)
            | Raise (KeyError _) =>
                Raise (KeyError ("Unknown " ++ spec_type ++ " reference: " ++ s))
            | Raise e => Raise e
            end
          else resolve_items items' materialized spec_type (Py.setitem out k v)
      | _ => resolve_items items' materialized spec_type (Py.setitem out k v)
      end
  end.

Definition resolve_refs (func_kwargs : dict value)
  (materialized : dict (dict value)) (spec_type : string)
  : result (dict value) :=
  match func_kwargs with
  | [] => Ok []
  | _ => resolve_items func_kwargs materialized spec_type []
  end.

Section Builder.

Variable np_interp : float -> list float -> list float -> float.
Variable float_pow : float -> float -> float.

Definition LOSS_REGISTRY : dict callable :=
  [ ("f_annulus_turbulent",
      call3 "lambda_circ" "D_outer" "D_inner" loss_utils.f_annulus_turbulent);
    ("free_discharge", call0 loss_utils.free_discharge);
    ("sudden_expansion",
      call2 "inlet_area" "outlet_area"
        (loss_utils.sudden_expansion float_pow));
    ("beveled_contraction_alpha60",
      call4 "bevel_length" "hydraulic_diameter" "inlet_area" "outlet_area"
        (loss_utils.beveled_contraction_alpha60 np_interp float_pow));
    ("beveled_contraction_alpha140",
      call4 "bevel_length" "hydraulic_diameter" "inlet_area" "outlet_area"
        (loss_utils.beveled_contraction_alpha140 np_interp float_pow));
    ("sharp_thick_inlet_facing_baffle",
      call2 "baffle_gap" "hydraulic_diameter"
        (loss_utils.sharp_thick_inlet_facing_baffle np_interp));
    ("discharge_from_straight_tube_to_baffle",
      call2 "baffle_gap" "hydraulic_diameter"
        (loss_utils.discharge_from_straight_tube_to_baffle np_interp));
    ("smooth_cone_diffuser_nar1",
      call1 "diverging_angle" (loss_utils.smooth_cone_diffuser_nar1 np_interp));
    ("sudden_contraction",
      call2 "inlet_area" "outlet_area"
        (loss_utils.sudden_contraction np_interp)) ].

(** [materialized[nest_type][key] = v] *)
Definition store (materialized : dict (dict value)) (nest_type key : string)
  (v : value) : result (dict (dict value)) :=
  m <- Py.getitem materialized nest_type ;;
  Ok (Py.setitem materialized nest_type (Py.setitem m key v)).

(** Lines 104-132: one [key, spec] of [sample_case[nest_type].items()]. *)
Definition materialize_entry (sample_name nest_type key : string) (spec : value)
  (materialized : dict (dict value)) : result (dict (dict value)) :=
  match spec with
  | VNum _ => store materialized nest_type key spec
  | _ =>
      if String.eqb key "flow_direction" then
        store materialized nest_type key spec
      else
        match spec with
        | VCall fn_name func_kwargs =>
            func_kwargs' <-
              (if String.eqb nest_type "loss"
               then resolve_refs func_kwargs materialized "geom"
               else Ok func_kwargs) ;;
            let registry :=
              if String.eqb nest_type "geom" then GEOM_REGISTRY float_pow
              else LOSS_REGISTRY in
            f <- Py.getitem registry fn_name ;;
            v <- f func_kwargs' ;;
            store materialized nest_type key v
        | _ =>
            Raise (TypeError ("[" ++ sample_name ++ "]: Unsupported spec for "
                              ++ nest_type ++ "." ++ key))
        end
  end.

Fixpoint materialize_items (sample_name nest_type : string)
  (items : dict value) (materialized : dict (dict value))
  : result (dict (dict value)) :=
  match items with
  | [] => Ok materialized
  | (key, spec) :: items' =>
      m <- materialize_entry sample_name nest_type key spec materialized ;;
      materialize_items sample_name nest_type items' m
  end.

(** Lines 101-132: [materialized.keys()] is iterated in the order "geom"
    then "loss". *)
Definition materialize (sample_case : descriptor)
  : result (dict (dict value)) :=
  let materialized := [("geom", []); ("loss", [])] in
  g <- Py.key_of sample_case.(geom) "geom" ;;
  m <- materialize_items sample_case.(name) "geom" g materialized ;;
  l <- Py.key_of sample_case.(loss) "loss" ;;
  materialize_items sample_case.(name) "loss" l m.

(** [inlet_plenum.<attribute>] *)
Definition plenum (inlet_plenum : option Inlet.t) : result Inlet.t :=
  match inlet_plenum with
  | Some i => Ok i
  | None => Raise (AttributeError "'NoneType' object has no attribute 'mass_flow_rate'")
  end.

(** Lines 134-159: the element of a descriptor that is neither an inlet nor
    an outlet. *)
Definition build_element (sample_case : descriptor)
  (network_list : list element) (inlet_plenum : option Inlet.t)
  : result element :=
  materialized <- materialize sample_case ;;
  g <- Py.getitem materialized "geom" ;;
  ra <- Py.key_of sample_case.(ref_area) "ref_area" ;;
  ref_area <- Py.getitem g ra.(station) ;;
  let flow_splits :=
    match ra.(flow_splits) with Some n => n | None => 1%float end in
  if String.eqb sample_case.(type) "pipe" then
    length <- Py.getitem g "length" ;;
    flow_direction <- Py.getitem g "flow_direction" ;;
    hydraulic_diameter <- Py.getitem g "hydraulic_diameter" ;;
    l <- Py.getitem materialized "loss" ;;
    friction_factor <- Py.getitem l "friction" ;;
    i <- plenum inlet_plenum ;;
    inlet_area <- Py.getitem g "inlet_area" ;;
    outlet_area <- Py.getitem g "outlet_area" ;;
    upstream <- Py.last_item network_list ;;
    length <- Py.as_float length ;;
    flow_direction <- Py.as_str flow_direction ;;
    hydraulic_diameter <- Py.as_float hydraulic_diameter ;;
    friction_factor <- Py.as_float friction_factor ;;
    inlet_area <- Py.as_float inlet_area ;;
    outlet_area <- Py.as_float outlet_area ;;
    ref_area <- Py.as_float ref_area ;;
    p <- Pipe.new float_pow sample_case.(name) length hydraulic_diameter
           friction_factor i.(Inlet.mass_flow_rate) i.(Inlet.density)
           inlet_area outlet_area upstream ref_area flow_direction
           None None ;;
    Ok (EPipe p)
  else
    i <- plenum inlet_plenum ;;
    mass_flow_rate <- Py.div i.(Inlet.mass_flow_rate) flow_splits ;;
    l <- Py.getitem materialized "loss" ;;
    form_loss <- Py.getitem l "form" ;;
    upstream <- Py.last_item network_list ;;
    ref_area <- Py.as_float ref_area ;;
    form_loss <- Py.as_float form_loss ;;
    j <- Junction.new float_pow sample_case.(name) ref_area form_loss
           mass_flow_rate i.(Inlet.density) upstream ;;
    Ok (EJunction j).

(** Lines 79-161: the loop over [enumerate(inputs["network"])], from
    position [idx] with [rest] still to visit; [n] is
    [len(inputs["network"])]. *)
Fixpoint build_loop (n idx : nat) (rest : list descriptor)
  (network_list : list element) (inlet_plenum : option Inlet.t)
  : result (list element) :=
  match rest with
  | [] => Ok network_list
  | sample_case :: rest' =>
      if String.eqb sample_case.(type) "inlet" then
        if negb (idx =? 0) then
          Raise (IndexError ("Inlet node should be first, currently "
                             ++ Py.str_of_nat idx))
        else
          f <- Py.key_of sample_case.(flow) "flow" ;;
          let inlet_plenum :=
            Inlet.mk sample_case.(name) f.(pressure) f.(mass_flow_rate)
                     f.(density) f.(temperature) in
          build_loop n (S idx) rest' (network_list ++ [EInlet inlet_plenum])%list
                     (Some inlet_plenum)
      else if String.eqb sample_case.(type) "outlet" then
        if negb (idx =? n - 1) then
          Raise (IndexError ("Outlet node should be last, currently "
                             ++ Py.str_of_nat idx))
        else
          last <- Py.last_item network_list ;;
          let outlet_plenum := Outlet.mk sample_case.(name) last in
          Ok (network_list ++ [EOutlet outlet_plenum])%list          (* break *)
      else
        network_obj <- build_element sample_case network_list inlet_plenum ;;
        build_loop n (S idx) rest' (network_list ++ [network_obj])%list inlet_plenum
  end.

Definition build_network (inputs : inputs_spec) : result Network.t :=
  network_list <-
    build_loop (List.length inputs.(network)) 0 inputs.(network) [] None ;;
  Ok (Network.mk inputs.(inputs_name) network_list).

End Builder.
End network_builder.

(** ** Concrete specifications *)

Module Example.

Import network_builder.

(** Stand-ins for the two library functions, to run the code on concrete
    inputs: piecewise-linear interpolation clamped to the end values, and
    for [pow] the rounded product at the exponent 2 and
    [sqrt x * sqrt (sqrt x)] at the exponent 0.75.  The theorems that are
    stated for [np_interp] and [float_pow] hold for any choice of the
    two. *)
Fixpoint interp_from (x x0 y0 : float) (xp fp : list float) : float :=
  match xp, fp with
  | x1 :: xp', y1 :: fp' =>
      if (x <? x1)%float then ((y1 - y0) / (x1 - x0) * (x - x0) + y0)%float
      else interp_from x x1 y1 xp' fp'
  | _, _ => y0
  end.

Definition np_interp (x : float) (xp fp : list float) : float :=
  match xp, fp with
  | x0 :: xp', y0 :: fp' =>
      if (x <=? x0)%float then y0 else interp_from x x0 y0 xp' fp'
  | _, _ => nan
  end.

Definition float_pow (x y : float) : float :=
  if (y =? 2.0)%float then (x * x)%float
  else (sqrt x * sqrt (sqrt x))%float.

Definition build : inputs_spec -> result Network.t :=
  build_network np_interp float_pow.

Definition circle (D : float) : value :=
  VCall "area_circle" [("D", VNum D)].

Definition inlet_500kPa : descriptor :=
  {| type := "inlet"; name := "inlet";
     flow := Some {| pressure := Some 500000%float; mass_flow_rate := 2%float;
                     density := 1.2%float; temperature := 300%float |};
     geom := None; loss := None; ref_area := None |}.

Definition outlet_plenum : descriptor :=
  {| type := "outlet"; name := "outlet"; flow := None; geom := None;
     loss := None; ref_area := None |}.

(** A level pipe of length 1 m, hydraulic diameter 0.1 m, friction factor
    0.02 and equal areas. *)
Definition pipe_side : descriptor :=
  {| type := "pipe"; name := "p1"; flow := None;
     geom := Some [ ("length", VNum 1%float);
                    ("flow_direction", VStr "side");
                    ("hydraulic_diameter", VNum 0.1%float);
                    ("inlet_area", circle 0.1%float);
                    ("outlet_area", circle 0.1%float) ];
     loss := Some [ ("friction", VNum 0.02%float) ];
     ref_area := Some {| station := "inlet_area"; flow_splits := None |} |}.

(** A sudden expansion whose loss parameters refer to its own geometry. *)
Definition junction_expansion : descriptor :=
  {| type := "junction"; name := "j1"; flow := None;
     geom := Some [ ("inlet_area", circle 0.1%float);
                    ("outlet_area", circle 0.2%float) ];
     loss := Some [ ("form",
                     VCall "sudden_expansion"
                       [ ("inlet_area", VStr "${geom.inlet_area}");
                         ("outlet_area", VStr "${geom.outlet_area}") ]) ];
     ref_area := Some {| station := "inlet_area"; flow_splits := None |} |}.

(** A pipe and a junction whose entries are numbers only: no function is
    called to materialize them. *)
Definition pipe_numbers : descriptor :=
  {| type := "pipe"; name := "p0"; flow := None;
     geom := Some [ ("length", VNum 1%float);
                    ("flow_direction", VStr "side");
                    ("hydraulic_diameter", VNum 0.1%float);
                    ("inlet_area", VNum 0.5%float);
                    ("outlet_area", VNum 0.5%float) ];
     loss := Some [ ("friction", VNum 0.02%float) ];
     ref_area := Some {| station := "inlet_area"; flow_splits := None |} |}.

Definition junction_numbers : descriptor :=
  {| type := "junction"; name := "j0"; flow := None;
     geom := Some [ ("inlet_area", VNum 0.5%float) ];
     loss := Some [ ("form", VNum 0.5%float) ];
     ref_area := Some {| station := "inlet_area"; flow_splits := None |} |}.

Definition chain : inputs_spec :=
  {| inputs_name := "chain";
     network := [inlet_500kPa; pipe_side; junction_expansion; outlet_plenum] |}.

(** Elements built directly. *)
Definition plenum : Inlet.t :=
  Inlet.mk "inlet" (Some 500000%float) 2%float 1.2%float 300%float.

Definition unset_plenum : Inlet.t :=
  Inlet.mk "inlet" None 2%float 1.2%float 300%float.

End Example.

(** ** Vocabulary of the statements *)

(** What [resolve_refs] is to put in place of a parameter value [v], given
    the materialized [geom] map [g]: the value of the key named by a
    reference token, the parameter itself otherwise; [None] for a token
    whose key [g] lacks. *)
Definition resolve_value (g : dict value) (v : value) : option value :=
  match v with
  | VStr s =>
      if Py.startswith s "${geom." && Py.endswith s "}"
      then Py.get g (Py.slice_to_last 7 s)
      else Some v
  | _ => Some v
  end.

(** [e] follows [prev] in a chain: an interior element has [prev] for its
    upstream and the outlet pressure of [prev] for its inlet pressure. *)
Definition linked (prev e : element) : Prop :=
  is_interior e = true ->
  element_upstream e = Some prev /\
  exists p : float,
    element_inlet_pressure e = Some p /\ get_outlet_pressure prev = Some p.

Fixpoint chain (l : list element) : Prop :=
  match l with
  | a :: (b :: _) as t => linked a b /\ chain t
  | _ => True
  end.

(** The loop at a misplaced descriptor: an inlet after position 0, or an
    outlet before the last position. *)
Definition misplaced (n idx : nat) (d : network_builder.descriptor) : Prop :=
  (d.(network_builder.type) = "inlet" /\ idx <> 0) \/
  (d.(network_builder.type) = "outlet" /\ idx <> n - 1).

(** The test of [build_network] for an entry that is stored as it is
    written: a number, or anything under the key "flow_direction". *)
Definition passes_through (key : string) (spec : value) : bool :=
  match spec with
  | VNum _ => true
  | _ => String.eqb key "flow_direction"
  end.

Section Entries.

Variable np_interp : float -> list float -> list float -> float.
Variable float_pow : float -> float -> float.

(** The registry [build_network] picks for the map [nest_type]. *)
Definition registry_of (nest_type : string) : dict callable :=
  if String.eqb nest_type "geom" then network_builder.GEOM_REGISTRY float_pow
  else network_builder.LOSS_REGISTRY np_interp float_pow.

(** What the entry [key: spec] of the map [nest_type] stores as [x]: the
    entry itself when it passes through, and otherwise the result of the
    function it names, called on some parameters [kw'], which for a [geom]
    entry are the parameters as they are written. *)
Definition entry_value (nest_type key : string) (spec x : value) : Prop :=
  if passes_through key spec then x = spec
  else exists fn kw kw' f,
      spec = VCall fn kw /\
      (nest_type = "geom" -> kw' = kw) /\
      Py.get (registry_of nest_type) fn = Some f /\
      f kw' = Ok x.

End Entries.

(** A parameter value [resolve_refs] reads as a reference of [spec_type]. *)
Definition is_token (spec_type : string) (v : value) : bool :=
  match v with
  | VStr s =>
      Py.startswith s ("${" ++ spec_type ++ ".") && Py.endswith s "}"
  | _ => false
  end.

(** [flow_splits] of a reference-area specification, 1 when absent. *)
Definition flow_splits_of (ra : network_builder.ref_area_spec) : float :=
  match ra.(network_builder.flow_splits) with
  | Some n => n
  | None => 1%float
  end.

(** The element [e] is what descriptor [d] asks for, behind the inlet [i]:
    an outlet for "outlet", a pipe for "pipe" and a junction for every other
    type, with the descriptor's name and the inlet's density and mass flow
    rate, the latter divided by [flow_splits] for a junction. *)
Definition built_from (i : Inlet.t) (d : network_builder.descriptor)
  (e : element) : Prop :=
  match e with
  | EInlet _ => False
  | EOutlet o =>
      d.(network_builder.type) = "outlet" /\
      o.(Outlet.name) = d.(network_builder.name)
  | EPipe p =>
      d.(network_builder.type) = "pipe" /\
      p.(Pipe.name) = d.(network_builder.name) /\
      p.(Pipe.mass_flow_rate) = i.(Inlet.mass_flow_rate) /\
      p.(Pipe.density) = i.(Inlet.density)
  | EJunction j =>
      d.(network_builder.type) <> "inlet" /\
      d.(network_builder.type) <> "outlet" /\
      d.(network_builder.type) <> "pipe" /\
      j.(Junction.name) = d.(network_builder.name) /\
      j.(Junction.density) = i.(Inlet.density) /\
      exists ra,
        d.(network_builder.ref_area) = Some ra /\
        j.(Junction.mass_flow_rate)
        = (i.(Inlet.mass_flow_rate) / flow_splits_of ra)%float
  end.

(** What [build_network] reads from a descriptor that is neither an inlet
    nor an outlet: the three maps, the [geom] entry of the reference
    station, and the entries of a pipe or of a junction; the
    "flow_direction" entry of a pipe is a string that [Pipe.compute]
    accepts. *)
Definition has_required_entries (d : network_builder.descriptor) : Prop :=
  match d.(network_builder.geom), d.(network_builder.loss),
        d.(network_builder.ref_area) with
  | Some G, Some L, Some ra =>
      In ra.(network_builder.station) (map fst G) /\
      if String.eqb d.(network_builder.type) "pipe" then
        incl [ "length"; "flow_direction"; "hydraulic_diameter";
               "inlet_area"; "outlet_area" ] (map fst G) /\
        In "friction" (map fst L) /\
        exists s sign,
          In ("flow_direction", VStr s) G /\
          Pipe.direction_sign s = Ok sign
      else In "form" (map fst L)
  | _, _, _ => False
  end.

(** Every computed attribute of the element is assigned. *)
Definition computed (e : element) : Prop :=
  match e with
  | EPipe p =>
      p.(Pipe.inlet_velocity) <> None /\ p.(Pipe.outlet_velocity) <> None /\
      p.(Pipe.ref_velocity) <> None /\ p.(Pipe.dp_loss) <> None /\
      p.(Pipe.dp_gravity) <> None /\ p.(Pipe.dp_accel) <> None /\
      p.(Pipe.pressure_drop) <> None /\ p.(Pipe.inlet_pressure) <> None /\
      p.(Pipe.outlet_pressure) <> None
  | EJunction j =>
      j.(Junction.ref_velocity) <> None /\ j.(Junction.dp_loss) <> None /\
      j.(Junction.pressure_drop) <> None /\
      j.(Junction.inlet_pressure) <> None /\
      j.(Junction.outlet_pressure) <> None
  | _ => True
  end.

(** * Properties *)

(** ** The element classes *)

#[local] Arguments Py.div : simpl never.
#[local] Arguments Py.pow2 : simpl never.
#[local] Arguments is_zero : simpl never.
#[local] Arguments get_outlet_pressure : simpl never.
#[local] Arguments Pipe.direction_sign : simpl never.

(** Division and squaring, by cases. *)
Lemma div_ok (x y : float) :
  is_zero y = false -> Py.div x y = Ok (x / y)%float.
Proof. unfold Py.div. intros ->. reflexivity. Qed.

Lemma div_zero (x y : float) :
  is_zero y = true ->
  Py.div x y = Raise (ZeroDivisionError "float division by zero").
Proof. unfold Py.div. intros ->. reflexivity. Qed.

Lemma pow2_cases (float_pow : float -> float -> float) (x : float) :
  Py.pow2 float_pow x = Ok (float_pow x 2.0%float) \/
  Py.pow2 float_pow x
  = Raise (OverflowError "(34, 'Numerical result out of range')").
Proof. unfold Py.pow2. destruct (_ && _); auto. Qed.

Lemma pow2_ok (float_pow : float -> float -> float) (x r : float) :
  Py.pow2 float_pow x = Ok r -> r = float_pow x 2.0%float.
Proof. destruct (pow2_cases float_pow x) as [-> | ->]; congruence. Qed.

Section Elements.

Context {U : Type} `{HasOutletPressure U}.

Variable float_pow : float -> float -> float.

(** [Junction(...)] as one expression: the tests of [compute] in the order
    the method makes them. *)
Lemma Junction_new_eq (name : string)
  (ref_area form_loss mass_flow_rate density : float) (upstream : U) :
  Junction.new float_pow name ref_area form_loss mass_flow_rate density
    upstream =
  match get_outlet_pressure upstream with
  | None => Raise (ValueError Junction.upstream_unset)
  | Some p0 =>
      v <- Py.div mass_flow_rate (density * ref_area)%float ;;
      v2 <- Py.pow2 float_pow v ;;
      let dp := (form_loss * 0.5 * density * v2)%float in
      Ok (Junction.mk name ref_area form_loss mass_flow_rate density upstream
            (Some v) (Some dp) (Some dp) (Some p0) (Some (p0 - dp)%float))
  end.
Proof.
  unfold Junction.new, Method.construct, Junction.compute, Junction.init.
  unfold Method.bind, Method.eval, Method.assign; cbn.
  destruct (get_outlet_pressure upstream) as [p0|] eqn:Hup; [|reflexivity].
  destruct (Py.div mass_flow_rate (density * ref_area)) as [v|e]; cbn;
    [|reflexivity].
  destruct (Py.pow2 float_pow v) as [v2|e]; cbn; [|reflexivity].
  rewrite Hup; reflexivity.
Qed.

(** [Pipe(...)] as one expression: the tests of [compute] in the order the
    method makes them. *)
Lemma Pipe_new_eq (name : string)
  (length hydraulic_diameter friction_factor mass_flow_rate density
   inlet_area outlet_area : float) (upstream : U) (ref_area : float)
  (flow_direction : string) (alpha1 alpha2 : option float) :
  Pipe.new float_pow name length hydraulic_diameter friction_factor
    mass_flow_rate density inlet_area outlet_area upstream ref_area
    flow_direction alpha1 alpha2 =
  match get_outlet_pressure upstream with
  | None => Raise (ValueError Pipe.upstream_unset)
  | Some p0 =>
      let a1 := match alpha1 with Some a => a | None => 1.0%float end in
      let a2 := match alpha2 with Some a => a | None => 1.0%float end in
      vi <- Py.div mass_flow_rate (density * inlet_area)%float ;;
      vo <- Py.div mass_flow_rate (density * outlet_area)%float ;;
      vr <- Py.div mass_flow_rate (density * ref_area)%float ;;
      vr2 <- Py.pow2 float_pow vr ;;
      r <- Py.div length hydraulic_diameter ;;
      sign <- Pipe.direction_sign flow_direction ;;
      vo2 <- Py.pow2 float_pow vo ;;
      vi2 <- Py.pow2 float_pow vi ;;
      let dp_loss := (friction_factor * r * (0.5 * density * vr2))%float in
      let dp_gravity := (density * Pipe.GRAVITY * length * sign)%float in
      let dp_accel := (0.5 * density * (a2 * vo2 - a1 * vi2))%float in
      let pressure_drop := (dp_loss + dp_gravity + dp_accel)%float in
      Ok (Pipe.mk name length hydraulic_diameter friction_factor
            mass_flow_rate density inlet_area outlet_area upstream ref_area
            flow_direction a1 a2
            (Some vi) (Some vo) (Some vr) (Some dp_loss) (Some dp_gravity)
            (Some dp_accel) (Some pressure_drop) (Some p0)
            (Some (p0 - pressure_drop)%float))
  end.
Proof.
  unfold Pipe.new, Method.construct, Pipe.compute, Pipe.init.
  unfold Method.bind, Method.eval, Method.assign; cbn.
  destruct (get_outlet_pressure upstream) as [p0|] eqn:Hup; [|reflexivity].
  destruct (Py.div mass_flow_rate (density * inlet_area)) as [vi|e]; cbn;
    [|reflexivity].
  destruct (Py.div mass_flow_rate (density * outlet_area)) as [vo|e]; cbn;
    [|reflexivity].
  destruct (Py.div mass_flow_rate (density * ref_area)) as [vr|e]; cbn;
    [|reflexivity].
  destruct (Py.pow2 float_pow vr) as [vr2|e]; cbn; [|reflexivity].
  destruct (Py.div length hydraulic_diameter) as [r|e]; cbn; [|reflexivity].
  destruct (Pipe.direction_sign flow_direction) as [sign|e]; cbn;
    [|reflexivity].
  destruct (Py.pow2 float_pow vo) as [vo2|e]; cbn; [|reflexivity].
  destruct (Py.pow2 float_pow vi) as [vi2|e]; cbn; [|reflexivity].
  rewrite Hup; reflexivity.
Qed.

(** X3.  A Junction is constructed whenever its upstream has an outlet
    pressure, density * ref_area is not zero and the square of the reference
    velocity does not overflow. *)
Lemma Junction_constructs (name : string)
  (ref_area form_loss mass_flow_rate density : float) (upstream : U)
  (p0 : float) :
  get_outlet_pressure upstream = Some p0 ->
  is_zero (density * ref_area) = false ->
  is_ok (Py.pow2 float_pow (mass_flow_rate / (density * ref_area))) = true ->
  is_ok (Junction.new float_pow name ref_area form_loss mass_flow_rate
           density upstream)
  = true.
Proof.
  intros Hup Hz Hp. rewrite Junction_new_eq, Hup, div_ok by assumption; cbn.
  destruct (Py.pow2 _ _); [reflexivity | discriminate].
Qed.

(** X2.  A Pipe is constructed whenever its upstream has an outlet pressure,
    the three products density * area and the hydraulic diameter are not
    zero, no square of a velocity overflows and the flow direction has a
    sign. *)
Lemma Pipe_constructs (name : string)
  (length hydraulic_diameter friction_factor mass_flow_rate density
   inlet_area outlet_area : float) (upstream : U) (ref_area : float)
  (flow_direction : string) (alpha1 alpha2 : option float) (p0 : float) :
  get_outlet_pressure upstream = Some p0 ->
  is_zero (density * inlet_area) = false ->
  is_zero (density * outlet_area) = false ->
  is_zero (density * ref_area) = false ->
  is_zero hydraulic_diameter = false ->
  is_ok (Py.pow2 float_pow (mass_flow_rate / (density * inlet_area))) = true ->
  is_ok (Py.pow2 float_pow (mass_flow_rate / (density * outlet_area))) = true ->
  is_ok (Py.pow2 float_pow (mass_flow_rate / (density * ref_area))) = true ->
  is_ok (Pipe.direction_sign flow_direction) = true ->
  is_ok (Pipe.new float_pow name length hydraulic_diameter friction_factor
           mass_flow_rate density inlet_area outlet_area upstream ref_area
           flow_direction alpha1 alpha2) = true.
Proof.
  intros Hup Hi Ho Hr Hd Pi Po Pr Hs.
  rewrite Pipe_new_eq, Hup; cbn.
  rewrite !div_ok by assumption; cbn.
  destruct (Py.pow2 float_pow (mass_flow_rate / (density * ref_area)));
    [cbn | discriminate].
  destruct (Pipe.direction_sign flow_direction); [cbn | discriminate].
  destruct (Py.pow2 float_pow (mass_flow_rate / (density * outlet_area)));
    [cbn | discriminate].
  destruct (Py.pow2 float_pow (mass_flow_rate / (density * inlet_area)));
    [reflexivity | discriminate].
Qed.

(** The constructors copy the upstream outlet pressure and keep the
    upstream element. *)
Lemma Junction_new_upstream (name : string)
  (ref_area form_loss mass_flow_rate density : float) (upstream : U)
  (j : Junction.t U) :
  Junction.new float_pow name ref_area form_loss mass_flow_rate density
    upstream = Ok j ->
  j.(Junction.upstream) = upstream /\
  j.(Junction.inlet_pressure) = get_outlet_pressure upstream /\
  exists p d, j.(Junction.inlet_pressure) = Some p /\
              j.(Junction.outlet_pressure) = Some d.
Proof.
  rewrite Junction_new_eq.
  destruct (get_outlet_pressure upstream) as [p0|]; [|discriminate].
  destruct (Py.div _ _) as [v|]; [cbn|discriminate].
  destruct (Py.pow2 float_pow v) as [v2|]; [cbn|discriminate].
  intros [= <-]; cbn; eauto 6.
Qed.

Lemma Pipe_new_upstream (name : string)
  (length hydraulic_diameter friction_factor mass_flow_rate density
   inlet_area outlet_area : float) (upstream : U) (ref_area : float)
  (flow_direction : string) (alpha1 alpha2 : option float) (p : Pipe.t U) :
  Pipe.new float_pow name length hydraulic_diameter friction_factor
    mass_flow_rate density inlet_area outlet_area upstream ref_area
    flow_direction alpha1 alpha2 = Ok p ->
  p.(Pipe.upstream) = upstream /\
  p.(Pipe.inlet_pressure) = get_outlet_pressure upstream /\
  exists q d, p.(Pipe.inlet_pressure) = Some q /\
              p.(Pipe.outlet_pressure) = Some d.
Proof.
  rewrite Pipe_new_eq.
  destruct (get_outlet_pressure upstream) as [p0|]; [|discriminate].
  cbn zeta.
  destruct (Py.div mass_flow_rate (density * inlet_area)) as [vi|];
    [cbn|discriminate].
  destruct (Py.div mass_flow_rate (density * outlet_area)) as [vo|];
    [cbn|discriminate].
  destruct (Py.div mass_flow_rate (density * ref_area)) as [vr|];
    [cbn|discriminate].
  destruct (Py.pow2 float_pow vr); [cbn|discriminate].
  destruct (Py.div length hydraulic_diameter); [cbn|discriminate].
  destruct (Pipe.direction_sign flow_direction); [cbn|discriminate].
  destruct (Py.pow2 float_pow vo); [cbn|discriminate].
  destruct (Py.pow2 float_pow vi); [cbn|discriminate].
  intros [= <-]; cbn; eauto 6.
Qed.

(** C3.  Every Junction that is constructed had its upstream outlet pressure
    set, and its computed attributes are: ref_velocity = mass_flow_rate /
    (density * ref_area); pressure_drop = dp_loss = form_loss * 0.5 * density
    * ref_velocity^2; inlet_pressure = upstream.outlet_pressure;
    outlet_pressure = inlet_pressure - form_loss * 0.5 * density *
    ref_velocity^2.  The square is the one the code takes, ref_velocity ** 2:
    what C's [pow] returns at the exponent 2, for any [pow].  The attributes
    given to the constructor are kept. *)
Theorem Junction_computed_fields (name : string)
  (ref_area form_loss mass_flow_rate density : float) (upstream : U)
  (j : Junction.t U) :
  Junction.new float_pow name ref_area form_loss mass_flow_rate density
    upstream = Ok j ->
  exists p0 : float,
    get_outlet_pressure upstream = Some p0 /\
    let ref_velocity := (mass_flow_rate / (density * ref_area))%float in
    let ref_velocity2 := float_pow ref_velocity 2.0%float in
    j.(Junction.ref_velocity) = Some ref_velocity /\
    j.(Junction.dp_loss)
      = Some (form_loss * 0.5 * density * ref_velocity2)%float /\
    j.(Junction.pressure_drop) = j.(Junction.dp_loss) /\
    j.(Junction.inlet_pressure) = Some p0 /\
    j.(Junction.outlet_pressure)
      = Some (p0 - form_loss * 0.5 * density * ref_velocity2)%float /\
    Junction.init j.(Junction.name) j.(Junction.ref_area)
      j.(Junction.form_loss) j.(Junction.mass_flow_rate)
      j.(Junction.density) j.(Junction.upstream)
    = Junction.init name ref_area form_loss mass_flow_rate density upstream.
Proof.
  rewrite Junction_new_eq.
  destruct (get_outlet_pressure upstream) as [p0|]; [|discriminate].
  unfold Py.div. destruct (is_zero _); [discriminate|]; cbn.
  destruct (Py.pow2 _ _) as [v2|] eqn:Hp; [cbn|discriminate].
  apply pow2_ok in Hp; subst v2.
  intros [= <-]; cbn. exists p0. repeat split; reflexivity.
Qed.

(** C2.  Every Pipe that is constructed had its upstream outlet pressure set
    and a flow direction with a sign, and its computed attributes are the
    three velocities mass_flow_rate / (density * area); dp_loss =
    friction_factor * (length / hydraulic_diameter) * (0.5 * density *
    ref_velocity^2), the products grouped as the source groups them;
    dp_gravity = density * 9.80665 * length * sign; dp_accel = 0.5 * density
    * (alpha2 * outlet_velocity^2 - alpha1 * inlet_velocity^2);
    pressure_drop = dp_loss + dp_gravity + dp_accel; inlet_pressure =
    upstream.outlet_pressure; outlet_pressure = inlet_pressure -
    pressure_drop.  Each square is the one the code takes, v ** 2: what C's
    [pow] returns at the exponent 2, for any [pow]. *)
Theorem Pipe_computed_fields (name : string)
  (length hydraulic_diameter friction_factor mass_flow_rate density
   inlet_area outlet_area : float) (upstream : U) (ref_area : float)
  (flow_direction : string) (alpha1 alpha2 : option float) (p : Pipe.t U) :
  Pipe.new float_pow name length hydraulic_diameter friction_factor
    mass_flow_rate density inlet_area outlet_area upstream ref_area
    flow_direction alpha1 alpha2 = Ok p ->
  exists p0 sign : float,
    get_outlet_pressure upstream = Some p0 /\
    Pipe.direction_sign flow_direction = Ok sign /\
    let inlet_velocity := (mass_flow_rate / (density * inlet_area))%float in
    let outlet_velocity := (mass_flow_rate / (density * outlet_area))%float in
    let ref_velocity := (mass_flow_rate / (density * ref_area))%float in
    let square (v : float) := float_pow v 2.0%float in
    let dp_loss :=
      (friction_factor * (length / hydraulic_diameter)
       * (0.5 * density * square ref_velocity))%float in
    let dp_gravity := (density * 9.80665 * length * sign)%float in
    let dp_accel :=
      (0.5 * density
       * (p.(Pipe.alpha2) * square outlet_velocity
          - p.(Pipe.alpha1) * square inlet_velocity))%float in
    p.(Pipe.inlet_velocity) = Some inlet_velocity /\
    p.(Pipe.outlet_velocity) = Some outlet_velocity /\
    p.(Pipe.ref_velocity) = Some ref_velocity /\
    p.(Pipe.dp_loss) = Some dp_loss /\
    p.(Pipe.dp_gravity) = Some dp_gravity /\
    p.(Pipe.dp_accel) = Some dp_accel /\
    p.(Pipe.pressure_drop) = Some (dp_loss + dp_gravity + dp_accel)%float /\
    p.(Pipe.inlet_pressure) = Some p0 /\
    p.(Pipe.outlet_pressure)
      = Some (p0 - (dp_loss + dp_gravity + dp_accel))%float /\
    Pipe.init p.(Pipe.name) p.(Pipe.length) p.(Pipe.hydraulic_diameter)
      p.(Pipe.friction_factor) p.(Pipe.mass_flow_rate) p.(Pipe.density)
      p.(Pipe.inlet_area) p.(Pipe.outlet_area) p.(Pipe.upstream)
      p.(Pipe.ref_area) p.(Pipe.flow_direction)
      (Some p.(Pipe.alpha1)) (Some p.(Pipe.alpha2))
    = Pipe.init name length hydraulic_diameter friction_factor
        mass_flow_rate density inlet_area outlet_area upstream ref_area
        flow_direction alpha1 alpha2.
Proof.
  rewrite Pipe_new_eq.
  destruct (get_outlet_pressure upstream) as [p0|]; [|discriminate].
  cbn zeta. unfold Py.div.
  destruct (is_zero (density * inlet_area)); [discriminate|]; cbn.
  destruct (is_zero (density * outlet_area)); [discriminate|]; cbn.
  destruct (is_zero (density * ref_area)); [discriminate|]; cbn.
  destruct (Py.pow2 float_pow (mass_flow_rate / (density * ref_area)))
    as [vr2|] eqn:Hr;
    [cbn|discriminate].
  destruct (is_zero hydraulic_diameter); [discriminate|]; cbn.
  destruct (Pipe.direction_sign flow_direction) as [sign|]; [cbn|discriminate].
  destruct (Py.pow2 float_pow (mass_flow_rate / (density * outlet_area)))
    as [vo2|] eqn:Ho;
    [cbn|discriminate].
  destruct (Py.pow2 float_pow (mass_flow_rate / (density * inlet_area)))
    as [vi2|] eqn:Hi;
    [cbn|discriminate].
  apply pow2_ok in Hr, Ho, Hi; subst vr2 vo2 vi2.
  intros [= <-]; cbn. exists p0, sign.
  repeat split; reflexivity.
Qed.

(** C8.  [compute] of a Pipe or of a Junction whose upstream has no outlet
    pressure raises the ValueError of the precondition and leaves the object
    as it was: the test comes before every assignment and every division,
    whatever the other attributes are.  The constructors therefore fail with
    that error. *)
Theorem unset_upstream_fails_first (p : Pipe.t U) (j : Junction.t U) :
  get_outlet_pressure p.(Pipe.upstream) = None ->
  get_outlet_pressure j.(Junction.upstream) = None ->
  Pipe.compute float_pow p = (Raise (ValueError Pipe.upstream_unset), p) /\
  Junction.compute float_pow j
  = (Raise (ValueError Junction.upstream_unset), j) /\
  Method.construct p (Pipe.compute float_pow)
  = Raise (ValueError Pipe.upstream_unset) /\
  Method.construct j (Junction.compute float_pow)
  = Raise (ValueError Junction.upstream_unset).
Proof.
  intros Hp Hj.
  assert (Pipe.compute float_pow p
          = (Raise (ValueError Pipe.upstream_unset), p)) as Ep.
  { unfold Pipe.compute, Method.bind, Method.eval. rewrite Hp. reflexivity. }
  assert (Junction.compute float_pow j
          = (Raise (ValueError Junction.upstream_unset), j)) as Ej.
  { unfold Junction.compute, Method.bind, Method.eval. rewrite Hj.
    reflexivity. }
  unfold Method.construct. rewrite Ep, Ej. auto.
Qed.




End Elements.

(** ** Instances on concrete elements *)

Lemma Junction_computed_fields_witness :
  exists j : Junction.t element,
    Junction.new Example.float_pow "j1" 0.5 0.5 2 1 (EInlet Example.plenum)
    = Ok j /\
    j.(Junction.ref_velocity) = Some 4%float /\
    j.(Junction.dp_loss) = Some (0.5 * 0.5 * 1 * 16)%float /\
    j.(Junction.pressure_drop) = j.(Junction.dp_loss) /\
    j.(Junction.inlet_pressure) = Some 500000%float /\
    j.(Junction.outlet_pressure) = Some 499996%float.
Proof.
  destruct (Junction.new _ _ _ _ _ _ _) as [j|e] eqn:Hnew;
    [|vm_compute in Hnew; discriminate].
  exists j. split; [reflexivity|].
  destruct (@Junction_computed_fields _ _ _ _ _ _ _ _ _ _ Hnew)
    as (p0 & Hup & Hv & Hl & Hd & Hi & Ho & _).
  injection Hup as <-. auto.
Defined.

Lemma Pipe_computed_fields_witness :
  exists p : Pipe.t element,
    Pipe.new Example.float_pow "p1" 1 0.5 0.02 2 1 0.5 0.25
      (EInlet Example.plenum) 0.5 "UP " None None = Ok p /\
    p.(Pipe.inlet_velocity) = Some 4%float /\
    p.(Pipe.outlet_velocity) = Some 8%float /\
    p.(Pipe.ref_velocity) = Some 4%float /\
    p.(Pipe.dp_loss) = Some (0.02 * (1 / 0.5) * (0.5 * 1 * 16))%float /\
    p.(Pipe.dp_gravity) = Some (1 * 9.80665 * 1 * 1)%float /\
    p.(Pipe.dp_accel) = Some 24%float /\
    p.(Pipe.inlet_pressure) = Some 500000%float /\
    (exists d, p.(Pipe.pressure_drop) = Some d /\
               p.(Pipe.outlet_pressure) = Some (500000 - d)%float).
Proof.
  destruct (Pipe.new _ _ _ _ _ _ _ _ _ _ _ _ _ _) as [p|e] eqn:Hnew;
    [|vm_compute in Hnew; discriminate].
  exists p. split; [reflexivity|].
  destruct (@Pipe_computed_fields _ _ _ _ _ _ _ _ _ _ _ _ _ _ _ _ _ Hnew)
    as (p0 & sign & Hup & Hsign & Hvi & Hvo & Hvr & Hl & Hg & Ha & Hd & Hi
        & Ho & Hinit).
  injection Hup as <-. vm_compute in Hsign. injection Hsign as <-.
  injection Hinit as _ _ _ _ _ _ _ _ _ _ _ Ha1 Ha2.
  rewrite Ha1, Ha2 in Ha.
  repeat split; try assumption. eauto.
Defined.

Lemma unset_upstream_fails_first_witness :
  let p := Pipe.init "p" 1 0 0 2 0 0 0 (EInlet Example.unset_plenum) 0
             "diagonal" None None in
  let j := Junction.init "j" 0 0 2 0 (EInlet Example.unset_plenum) in
  Pipe.compute Example.float_pow p
  = (Raise (ValueError Pipe.upstream_unset), p) /\
  Junction.compute Example.float_pow j
  = (Raise (ValueError Junction.upstream_unset), j) /\
  Method.construct p (Pipe.compute Example.float_pow)
  = Raise (ValueError Pipe.upstream_unset) /\
  Method.construct j (Junction.compute Example.float_pow)
  = Raise (ValueError Junction.upstream_unset).
Proof.
  exact (unset_upstream_fails_first Example.float_pow
           (Pipe.init "p" 1 0 0 2 0 0 0 (EInlet Example.unset_plenum) 0
              "diagonal" None None)
           (Junction.init "j" 0 0 2 0 (EInlet Example.unset_plenum))
           eq_refl eq_refl).
Defined.





(** ** The geometry and loss libraries *)

(** C4, on the code.  The function registered as "hydraulic_diameter_annulus"
    returns pi * (D_outer + D_inner), the wetted perimeter of the annulus,
    for every pair of diameters.  For D_outer = 2 and D_inner = 1 it returns
    3 pi, where the hydraulic diameter 4 A / P_w and the sibling
    [hydraulic_diameter_annulus_concentric] give D_outer - D_inner = 1. *)
Theorem hydraulic_diameter_annulus_is_perimeter
  (float_pow : float -> float -> float) (D_outer D_inner : float) :
  (f <- Py.getitem (network_builder.GEOM_REGISTRY float_pow)
          "hydraulic_diameter_annulus" ;;
   f [("D_outer", VNum D_outer); ("D_inner", VNum D_inner)])
  = Ok (VNum (pi * (D_outer + D_inner))%float) /\
  (f <- Py.getitem (network_builder.GEOM_REGISTRY float_pow)
          "hydraulic_diameter_annulus" ;;
   f [("D_outer", VNum 2%float); ("D_inner", VNum 1%float)])
  = Ok (VNum 9.4247779607693793%float) /\
  (A <- pdrop_funcs.area_annulus Example.float_pow 2 1 ;;
   P_w <- pdrop_funcs.hydraulic_diameter_annulus 2 1 ;;
   pdrop_funcs.hydraulic_diameter_generic A P_w) = Ok 1%float /\
  pdrop_funcs.hydraulic_diameter_annulus_concentric 2 1 = Ok (2 - 1)%float /\
  (9.4247779607693793 =? 2 - 1)%float = false.
Proof.
  split; [reflexivity|].
  repeat split; vm_compute; reflexivity.
Qed.

(** X1.  [area_annulus] and [sudden_expansion] test nothing: no float makes
    them raise ValueError. *)
Lemma area_annulus_sudden_expansion_unchecked
  (float_pow : float -> float -> float) (a b : float) :
  is_ValueError (pdrop_funcs.area_annulus float_pow a b) = false /\
  is_ValueError (loss_utils.sudden_expansion float_pow a b) = false.
Proof.
  split.
  - unfold pdrop_funcs.area_annulus.
    destruct (pow2_cases float_pow a) as [-> | ->]; [|reflexivity]; cbn.
    destruct (pow2_cases float_pow b) as [-> | ->]; reflexivity.
  - unfold loss_utils.sudden_expansion, Py.div.
    destruct (is_zero b); [reflexivity|]; cbn.
    destruct (pow2_cases float_pow (1 - a / b)) as [-> | ->]; reflexivity.
Qed.

(** The statement C6 makes of every function fails on [area_circle], which
    accepts a zero diameter, and on [area_annulus] and [sudden_expansion],
    which return for an inverted annulus and for a negative area;
    [sudden_expansion] on a zero outlet area raises ZeroDivisionError. *)
Lemma unvalidated_inputs_return :
  pdrop_funcs.area_circle Example.float_pow 0 = Ok 0%float /\
  pdrop_funcs.area_annulus Example.float_pow 1 2
  = Ok (-2.3561944901923448)%float /\
  pdrop_funcs.area_annulus Example.float_pow (-2) (-1)
  = Ok 2.3561944901923448%float /\
  loss_utils.sudden_expansion Example.float_pow (-1) 1 = Ok 4%float /\
  loss_utils.sudden_expansion Example.float_pow 1 0
  = Raise (ZeroDivisionError "float division by zero").
Proof. repeat split; vm_compute; reflexivity. Qed.

Section Validation.

Variable np_interp : float -> list float -> list float -> float.
Variable float_pow : float -> float -> float.

(** C6, as the code has it.  The functions that test their arguments raise
    ValueError as follows.  Geometry: [area_circle], [area_rectangle] and
    [area_capsule_slot] on a negative dimension.  Loss coefficients:
    [sudden_contraction] and the two beveled contractions on a non-positive
    area, the beveled ones also on an area ratio outside (0, 1];
    [f_annulus_turbulent] on a non-positive diameter, then on an annulus
    that has not D_inner < D_outer, then on a non-positive lambda_circ, its
    divisor; [sharp_thick_inlet_facing_baffle] and
    [discharge_from_straight_tube_to_baffle] on a non-positive hydraulic
    diameter. *)
Theorem validated_preconditions :
  (forall D, (D <? 0)%float = true ->
     pdrop_funcs.area_circle float_pow D
     = Raise (ValueError "D must be non-negative.")) /\
  (forall L w, (L <? 0)%float || (w <? 0)%float = true ->
     pdrop_funcs.area_rectangle L w
     = Raise (ValueError "L and w must be non-negative.")) /\
  (forall b L, (b <? 0)%float || (L <? 0)%float = true ->
     pdrop_funcs.area_capsule_slot float_pow b L
     = Raise (ValueError "b and L must be non-negative.")) /\
  (forall inlet_area outlet_area,
     (inlet_area <=? 0)%float || (outlet_area <=? 0)%float = true ->
     loss_utils.sudden_contraction np_interp inlet_area outlet_area
     = Raise (ValueError "Areas must be positive.")) /\
  (forall bevel_length hydraulic_diameter inlet_area outlet_area,
     (inlet_area <=? 0)%float || (outlet_area <=? 0)%float = true ->
     loss_utils.beveled_contraction_alpha60 np_interp float_pow bevel_length
       hydraulic_diameter inlet_area outlet_area
     = Raise (ValueError "Areas must be positive.") /\
     loss_utils.beveled_contraction_alpha140 np_interp float_pow bevel_length
       hydraulic_diameter inlet_area outlet_area
     = Raise (ValueError "Areas must be positive.")) /\
  (forall bevel_length hydraulic_diameter inlet_area outlet_area,
     (inlet_area <=? 0)%float || (outlet_area <=? 0)%float = false ->
     is_zero inlet_area = false ->
     let r := (outlet_area / inlet_area)%float in
     (0 <? r)%float && (r <=? 1)%float = false ->
     loss_utils.beveled_contraction_alpha60 np_interp float_pow bevel_length
       hydraulic_diameter inlet_area outlet_area
     = Raise (ValueError "outlet_area / inlet_area must be in (0, 1].") /\
     loss_utils.beveled_contraction_alpha140 np_interp float_pow bevel_length
       hydraulic_diameter inlet_area outlet_area
     = Raise (ValueError "outlet_area / inlet_area must be in (0, 1].")) /\
  (forall lambda_circ D_outer D_inner,
     (D_outer <=? 0)%float || (D_inner <=? 0)%float = true ->
     loss_utils.f_annulus_turbulent lambda_circ D_outer D_inner
     = Raise (ValueError "Diameters must be positive.")) /\
  (forall lambda_circ D_outer D_inner,
     (D_outer <=? 0)%float || (D_inner <=? 0)%float = false ->
     (D_inner <? D_outer)%float = false ->
     loss_utils.f_annulus_turbulent lambda_circ D_outer D_inner
     = Raise (ValueError
                "Require D_inner < D_outer for a concentric annulus.")) /\
  (forall lambda_circ D_outer D_inner,
     (D_outer <=? 0)%float || (D_inner <=? 0)%float = false ->
     (D_inner <? D_outer)%float = true ->
     (lambda_circ <=? 0)%float = true ->
     loss_utils.f_annulus_turbulent lambda_circ D_outer D_inner
     = Raise (ValueError "lambda_circ must be positive.")) /\
  (forall baffle_gap hydraulic_diameter,
     (hydraulic_diameter <=? 0)%float = true ->
     loss_utils.sharp_thick_inlet_facing_baffle np_interp baffle_gap
       hydraulic_diameter
     = Raise (ValueError "hydraulic_diameter must be > 0.") /\
     loss_utils.discharge_from_straight_tube_to_baffle np_interp baffle_gap
       hydraulic_diameter
     = Raise (ValueError "hydraulic_diameter must be > 0.")).
Proof.
  repeat match goal with |- _ /\ _ => split end.
  - intros D H. unfold pdrop_funcs.area_circle. now rewrite H.
  - intros L w H. unfold pdrop_funcs.area_rectangle. now rewrite H.
  - intros b L H. unfold pdrop_funcs.area_capsule_slot. now rewrite H.
  - intros a b H. unfold loss_utils.sudden_contraction. now rewrite H.
  - intros l h a b H.
    unfold loss_utils.beveled_contraction_alpha60,
      loss_utils.beveled_contraction_alpha140, loss_utils.beveled_contraction.
    rewrite H. split; reflexivity.
  - intros l h a b H Hz r Hr. subst r.
    unfold loss_utils.beveled_contraction_alpha60,
      loss_utils.beveled_contraction_alpha140, loss_utils.beveled_contraction.
    rewrite H, (div_ok _ Hz); cbn [Py.bind]. rewrite Hr.
    split; reflexivity.
  - intros lc Do Di H. unfold loss_utils.f_annulus_turbulent. now rewrite H.
  - intros lc Do Di H Ho. unfold loss_utils.f_annulus_turbulent.
    now rewrite H, Ho.
  - intros lc Do Di H Ho Hl. unfold loss_utils.f_annulus_turbulent.
    now rewrite H, Ho, Hl.
  - intros g h H.
    unfold loss_utils.sharp_thick_inlet_facing_baffle,
      loss_utils.discharge_from_straight_tube_to_baffle.
    rewrite H. split; reflexivity.
Qed.

End Validation.

Lemma validated_preconditions_witness :
  pdrop_funcs.area_circle Example.float_pow (-1)
  = Raise (ValueError "D must be non-negative.") /\
  loss_utils.sudden_contraction Example.np_interp (-1) 1
  = Raise (ValueError "Areas must be positive.") /\
  loss_utils.f_annulus_turbulent 0.02 1 2
  = Raise (ValueError "Require D_inner < D_outer for a concentric annulus.") /\
  loss_utils.beveled_contraction_alpha60 Example.np_interp Example.float_pow
    0.01 0.1 1 2
  = Raise (ValueError "outlet_area / inlet_area must be in (0, 1].").
Proof.
  destruct (validated_preconditions Example.np_interp Example.float_pow)
    as (Hc & _ & _ & Hs & _ & Hb & _ & Ha & _).
  split; [apply Hc; reflexivity|].
  split; [apply Hs; reflexivity|].
  split; [apply Ha; reflexivity|].
  apply (Hb 0.01 0.1 1 2)%float; reflexivity.
Defined.

(** ** The builder *)

(** *** Dictionaries *)

Lemma get_setitem_same {V : Type} (d : dict V) (k : string) (v : V) :
  Py.get (Py.setitem d k v) k = Some v.
Proof.
  induction d as [|[k' v'] d IH]; cbn.
  - now rewrite String.eqb_refl.
  - destruct (String.eqb k' k) eqn:E; cbn.
    + now rewrite String.eqb_refl.
    + now rewrite E.
Qed.

Lemma get_setitem_other {V : Type} (d : dict V) (k k' : string) (v : V) :
  k <> k' -> Py.get (Py.setitem d k v) k' = Py.get d k'.
Proof.
  intros Hne. induction d as [|[k0 v0] d IH]; cbn.
  - apply String.eqb_neq in Hne. now rewrite Hne.
  - destruct (String.eqb k0 k) eqn:E; cbn.
    + apply String.eqb_eq in E; subst k0.
      apply String.eqb_neq in Hne. now rewrite Hne.
    + destruct (String.eqb k0 k'); [reflexivity | exact IH].
Qed.

(** ** References to materialized geometry *)

#[local] Arguments Py.startswith : simpl never.
#[local] Arguments Py.endswith : simpl never.
#[local] Arguments Py.slice_to_last : simpl never.
#[local] Arguments String.append : simpl nomatch.

Lemma resolve_items_some (k : string) (v x : value) (items : dict value)
  (m : dict (dict value)) (g out : dict value) :
  Py.get m "geom" = Some g ->
  resolve_value g v = Some x ->
  network_builder.resolve_items ((k, v) :: items) m "geom" out
  = network_builder.resolve_items items m "geom" (Py.setitem out k x).
Proof.
  intros Hg. destruct v as [y|s| |fn kw]; cbn; try (intros [= <-]; reflexivity).
  unfold Py.getitem. rewrite Hg. cbn.
  destruct (Py.startswith s "${geom." && Py.endswith s "}").
  - intros ->. reflexivity.
  - intros [= <-]. reflexivity.
Qed.

Lemma resolve_items_none (k s : string) (items : dict value)
  (m : dict (dict value)) (g out : dict value) :
  Py.get m "geom" = Some g ->
  resolve_value g (VStr s) = None ->
  network_builder.resolve_items ((k, VStr s) :: items) m "geom" out
  = Raise (KeyError ("Unknown geom reference: " ++ s)).
Proof.
  intros Hg. cbn. unfold Py.getitem. rewrite Hg. cbn.
  destruct (Py.startswith s "${geom." && Py.endswith s "}"); [|discriminate].
  intros ->. reflexivity.
Qed.

Lemma resolve_value_none (g : dict value) (v : value) :
  resolve_value g v = None -> exists s, v = VStr s.
Proof. destruct v; cbn; try discriminate. eauto. Qed.

Lemma resolve_items_ok (items : dict value) (m : dict (dict value))
  (g out0 out : dict value) :
  Py.get m "geom" = Some g ->
  network_builder.resolve_items items m "geom" out0 = Ok out ->
  (forall k, ~ In k (map fst items) -> Py.get out k = Py.get out0 k) /\
  (forall k v, In (k, v) items -> resolve_value g v <> None) /\
  (NoDup (map fst items) ->
   forall k v, In (k, v) items -> Py.get out k = resolve_value g v).
Proof.
  intros Hg. revert out0.
  induction items as [|[k v] items IH]; intros out0 Hres.
  - injection Hres as <-. cbn. repeat split; tauto.
  - destruct (resolve_value g v) as [x|] eqn:Hv.
    2:{ destruct (resolve_value_none _ _ Hv) as (s & ->).
        rewrite (@resolve_items_none k s items m g out0 Hg Hv) in Hres.
        discriminate. }
    rewrite (@resolve_items_some k v x items m g out0 Hg Hv) in Hres.
    destruct (IH _ Hres) as (Hout & Hall & Hget).
    split; [|split].
    + intros k' Hk'. cbn in Hk'.
      rewrite Hout by tauto. apply get_setitem_other. tauto.
    + intros k' v' [[= <- <-] | Hin]; [congruence | eauto].
    + intros Hnd k' v' Hin. inversion Hnd as [|? ? Hni Hnd']; subst.
      destruct Hin as [[= <- <-] | Hin].
      * rewrite Hout by exact Hni. rewrite get_setitem_same. now symmetry.
      * now apply Hget.
Qed.

Lemma resolve_items_raise (items : dict value) (m : dict (dict value))
  (g out0 : dict value) (e : exn) :
  Py.get m "geom" = Some g ->
  network_builder.resolve_items items m "geom" out0 = Raise e ->
  exists k s, In (k, VStr s) items /\ resolve_value g (VStr s) = None /\
              e = KeyError ("Unknown geom reference: " ++ s).
Proof.
  intros Hg. revert out0.
  induction items as [|[k v] items IH]; intros out0 Hres; [discriminate|].
  destruct (resolve_value g v) as [x|] eqn:Hv.
  - rewrite (@resolve_items_some k v x items m g out0 Hg Hv) in Hres.
    destruct (IH _ Hres) as (k' & s & Hin & Hs & He).
    exists k', s. cbn; auto.
  - destruct (resolve_value_none _ _ Hv) as (s & ->).
    rewrite (@resolve_items_none k s items m g out0 Hg Hv) in Hres.
    injection Hres as <-. exists k, s. cbn; auto.
Qed.

(** [resolve_refs] reads [materialized] at [spec_type] only. *)
Lemma resolve_refs_geom_only (kw : dict value) (m m' : dict (dict value)) :
  Py.get m "geom" = Py.get m' "geom" ->
  network_builder.resolve_refs kw m "geom"
  = network_builder.resolve_refs kw m' "geom".
Proof.
  intros Hg. unfold network_builder.resolve_refs.
  destruct kw as [|kv kw]; [reflexivity|].
  generalize (@nil (string * value)) as out. generalize (kv :: kw) as items.
  induction items as [|[k v] items IH]; intros out; [reflexivity|].
  cbn. unfold Py.getitem. rewrite <- Hg.
  destruct v; auto.
  destruct (_ && _); auto.
  destruct (Py.get m "geom") as [g|]; cbn; auto.
  destruct (Py.get g _); auto.
Qed.

Lemma resolve_refs_items (kw : dict value) (m : dict (dict value))
  (spec_type : string) :
  network_builder.resolve_refs kw m spec_type
  = network_builder.resolve_items kw m spec_type [].
Proof. destruct kw; reflexivity. Qed.

(** Tactic: split an equation [(x <- c ;; k) = Ok r] at its first
    computation. *)
Ltac bind_ok H :=
  match type of H with
  | Py.bind ?c _ = Ok _ =>
      let E := fresh "E" in
      destruct c eqn:E; cbn [Py.bind] in H; [|discriminate H]
  end.

Section Materialization.

Variable np_interp : float -> list float -> list float -> float.
Variable float_pow : float -> float -> float.

Abbreviation LOSS_REGISTRY := (network_builder.LOSS_REGISTRY np_interp float_pow).
Abbreviation materialize_entry :=
  (network_builder.materialize_entry np_interp float_pow).
Abbreviation materialize_items :=
  (network_builder.materialize_items np_interp float_pow).
Abbreviation materialize := (network_builder.materialize np_interp float_pow).

Lemma store_inv (m m' : dict (dict value)) (nest key : string) (v : value) :
  network_builder.store m nest key v = Ok m' ->
  (forall n, n <> nest -> Py.get m' n = Py.get m n) /\
  exists d, Py.get m nest = Some d /\
            Py.get m' nest = Some (Py.setitem d key v).
Proof.
  unfold network_builder.store, Py.getitem.
  destruct (Py.get m nest) as [d|] eqn:Hd; [cbn|discriminate].
  intros [= <-]. split.
  - intros n Hn. apply get_setitem_other. congruence.
  - exists d. split; [reflexivity | apply get_setitem_same].
Qed.

(** One entry writes one key of its own map and nothing else. *)
Lemma materialize_entry_frame (name nest key : string) (spec : value)
  (m m' : dict (dict value)) :
  materialize_entry name nest key spec m = Ok m' ->
  (forall n, n <> nest -> Py.get m' n = Py.get m n) /\
  exists d x, Py.get m nest = Some d /\
              Py.get m' nest = Some (Py.setitem d key x).
Proof.
  unfold network_builder.materialize_entry.
  assert (forall x, network_builder.store m nest key x = Ok m' ->
    (forall n, n <> nest -> Py.get m' n = Py.get m n) /\
    exists d x, Py.get m nest = Some d /\
                Py.get m' nest = Some (Py.setitem d key x)) as Hstore.
  { intros x Hx. destruct (@store_inv _ _ _ _ _ Hx) as (Hf & d & Hd & Hd').
    split; [exact Hf | eauto]. }
  destruct spec as [x|s| |fn kw]; [eauto| | |];
    (destruct (String.eqb key "flow_direction"); [eauto|]);
    try discriminate.
  intros Hm. bind_ok Hm. bind_ok Hm. bind_ok Hm. eauto.
Qed.

Lemma materialize_items_frame (name nest : string) (items : dict value)
  (m m' : dict (dict value)) :
  materialize_items name nest items m = Ok m' ->
  (forall n, n <> nest -> Py.get m' n = Py.get m n) /\
  (Py.get m nest <> None -> Py.get m' nest <> None).
Proof.
  revert m. induction items as [|[key spec] items IH]; intros m Hm; cbn in Hm.
  - injection Hm as <-. auto.
  - bind_ok Hm.
    destruct (@materialize_entry_frame _ _ _ _ _ _ E) as (Hf & d & x & Hd & Hd').
    destruct (IH _ Hm) as (Hf' & Hp). split.
    + intros n Hn. rewrite Hf', Hf; auto.
    + intros _. apply Hp. congruence.
Qed.

(** A function-call entry of the [loss] map: the parameters are resolved
    against the [geom] map of the moment, the function is looked up in the
    loss registry and called on the resolved parameters, and its result is
    stored under the entry's key. *)
Lemma materialize_entry_loss_call (name key fn : string) (kw : dict value)
  (m m' : dict (dict value)) :
  key <> "flow_direction" ->
  materialize_entry name "loss" key (VCall fn kw) m = Ok m' ->
  exists kw' f v d,
    network_builder.resolve_refs kw m "geom" = Ok kw' /\
    Py.get LOSS_REGISTRY fn = Some f /\
    f kw' = Ok (v : value) /\
    Py.get m "loss" = Some d /\
    Py.get m' "loss" = Some (Py.setitem d key v).
Proof.
  intros Hk. apply String.eqb_neq in Hk.
  unfold network_builder.materialize_entry. rewrite Hk.
  change (String.eqb "loss" "loss") with true.
  change (String.eqb "loss" "geom") with false. cbn iota.
  intros Hm. bind_ok Hm. bind_ok Hm. bind_ok Hm.
  destruct (@store_inv _ _ _ _ _ Hm) as (_ & d0 & Hd & Hd').
  unfold Py.getitem in E0.
  destruct (Py.get LOSS_REGISTRY fn) as [f|] eqn:Hf; [|discriminate].
  injection E0 as <-.
  exists a, f, a1, d0. auto.
Qed.

Lemma materialize_items_loss (name : string) (L : dict value)
  (m m' : dict (dict value)) (dl : dict value) :
  Py.get m "loss" = Some dl ->
  materialize_items name "loss" L m = Ok m' ->
  exists dl',
    Py.get m' "loss" = Some dl' /\
    (forall k, ~ In k (map fst L) -> Py.get dl' k = Py.get dl k) /\
    (forall key fn kw, In (key, VCall fn kw) L -> key <> "flow_direction" ->
       exists kw' f v,
         network_builder.resolve_refs kw m "geom" = Ok kw' /\
         Py.get LOSS_REGISTRY fn = Some f /\
         f kw' = Ok (v : value) /\
         (NoDup (map fst L) -> Py.get dl' key = Some v)).
Proof.
  revert m dl. induction L as [|[key spec] L IH]; intros m dl Hdl Hm;
    cbn in Hm.
  - injection Hm as <-. exists dl. repeat split; auto. intros ? ? ? [].
  - bind_ok Hm. rename a into m1.
    destruct (@materialize_entry_frame _ _ _ _ _ _ E)
      as (Hfr & d & x & Hd & Hd1).
    rewrite Hdl in Hd. injection Hd as <-.
    destruct (IH _ _ Hd1 Hm) as (dl' & Hdl' & Hkeep & Hcalls).
    exists dl'. split; [exact Hdl'|]. split.
    + intros k Hk. cbn in Hk. rewrite Hkeep by tauto.
      apply get_setitem_other. tauto.
    + intros key' fn kw [[= <- ->] | Hin] Hkey.
      * destruct (@materialize_entry_loss_call _ _ _ _ _ _ Hkey E)
          as (kw' & f & v & d0 & Hres & Hf & Hcall & Hd0 & Hd0').
        exists kw', f, v. repeat split; auto.
        intros Hnd. inversion Hnd as [|? ? Hni _]; subst.
        rewrite Hkeep by exact Hni.
        rewrite Hd1 in Hd0'. injection Hd0' as Heq. rewrite Heq.
        apply get_setitem_same.
      * destruct (Hcalls _ _ _ Hin Hkey) as (kw' & f & v & Hres & Hf & Hcall & Hv).
        exists kw', f, v. repeat split; auto.
        -- rewrite <- Hres. apply resolve_refs_geom_only.
           symmetry. apply Hfr. discriminate.
        -- intros Hnd. apply Hv. now inversion Hnd.
Qed.

(** C7.  [resolve_refs] replaces every parameter that is a reference token
    [${geom.<key>}] by the value the materialized [geom] map has for <key>
    and keeps every other parameter as it is; a token whose key the map
    lacks raises KeyError "Unknown geom reference: <token>".  [materialize]
    runs the whole [geom] pass, then the [loss] pass on its result; the
    [loss] pass leaves the [geom] map as the [geom] pass made it, and every
    function-call entry of [loss] stores the result of its loss function on
    the parameters resolved against that map. *)
Theorem loss_references_resolved :
  (forall (kw : dict value) (m : dict (dict value)) (g : dict value),
     Py.get m "geom" = Some g ->
     match network_builder.resolve_refs kw m "geom" with
     | Ok out =>
         (forall k, ~ In k (map fst kw) -> Py.get out k = None) /\
         (forall k v, In (k, v) kw ->
            resolve_value g v <> None /\
            (NoDup (map fst kw) -> Py.get out k = resolve_value g v))
     | Raise e =>
         exists k s, In (k, VStr s) kw /\
                     resolve_value g (VStr s) = None /\
                     e = KeyError ("Unknown geom reference: " ++ s)
     end) /\
  (forall (kw : dict value) (m : dict (dict value)) (g : dict value)
          (k s : string),
     Py.get m "geom" = Some g ->
     In (k, VStr s) kw -> resolve_value g (VStr s) = None ->
     is_KeyError (network_builder.resolve_refs kw m "geom") = true) /\
  (forall (sample_case : network_builder.descriptor)
          (m : dict (dict value)),
     materialize sample_case = Ok m ->
     exists (G L : dict value) (mg : dict (dict value)) (g dl : dict value),
       sample_case.(network_builder.geom) = Some G /\
       sample_case.(network_builder.loss) = Some L /\
       materialize_items sample_case.(network_builder.name) "geom" G
         [("geom", []); ("loss", [])] = Ok mg /\
       materialize_items sample_case.(network_builder.name) "loss" L mg
       = Ok m /\
       Py.get mg "geom" = Some g /\
       Py.get m "geom" = Some g /\
       Py.get m "loss" = Some dl /\
       forall key fn kw,
         In (key, VCall fn kw) L -> key <> "flow_direction" ->
         exists kw' f v,
           network_builder.resolve_refs kw [("geom", g)] "geom" = Ok kw' /\
           Py.get LOSS_REGISTRY fn = Some f /\
           f kw' = Ok (v : value) /\
           (NoDup (map fst L) -> Py.get dl key = Some v)).
Proof.
  split; [|split].
  - intros kw m g Hg. rewrite resolve_refs_items.
    destruct (network_builder.resolve_items kw m "geom" []) as [out|e] eqn:Hres.
    + destruct (@resolve_items_ok _ _ _ _ _ Hg Hres) as (Hout & Hall & Hget).
      split; [intros k Hk; now rewrite Hout|].
      intros k v Hin. split; eauto.
    + eapply resolve_items_raise; eauto.
  - intros kw m g k s Hg Hin Hs. rewrite resolve_refs_items.
    destruct (network_builder.resolve_items kw m "geom" []) as [out|e] eqn:Hres.
    + destruct (@resolve_items_ok _ _ _ _ _ Hg Hres) as (_ & Hall & _).
      now apply Hall in Hin.
    + destruct (@resolve_items_raise _ _ _ _ _ Hg Hres) as (? & ? & _ & _ & ->).
      reflexivity.
  - intros sample_case m Hm. unfold network_builder.materialize in Hm.
    destruct (network_builder.geom sample_case) as [G|]; [cbn in Hm|discriminate].
    bind_ok Hm. rename a into mg.
    destruct (network_builder.loss sample_case) as [L|]; [cbn in Hm|discriminate].
    destruct (@materialize_items_frame _ _ _ _ _ E) as (Hfg & Hpg).
    assert (Py.get mg "loss" = Some []) as Hl0
      by (rewrite Hfg; [reflexivity | discriminate]).
    destruct (Py.get mg "geom") as [g|] eqn:Hg;
      [|exfalso; apply Hpg; [discriminate | reflexivity]].
    destruct (@materialize_items_frame _ _ _ _ _ Hm) as (Hfl & _).
    destruct (@materialize_items_loss _ _ _ _ _ Hl0 Hm) as (dl & Hdl & _ & Hcalls).
    exists G, L, mg, g, dl. repeat split; auto.
    + rewrite Hfl; [exact Hg | discriminate].
    + intros key fn kw Hin Hkey.
      destruct (Hcalls _ _ _ Hin Hkey) as (kw' & f & v & Hres & Hrest).
      exists kw', f, v. split; [|exact Hrest].
      rewrite <- Hres. apply resolve_refs_geom_only.
      rewrite Hg. reflexivity.
Qed.

End Materialization.

(** ** The chain of elements *)

Lemma last_item_cons {A : Type} (a b : A) (t : list A) :
  Py.last_item (a :: b :: t) = Py.last_item (b :: t).
Proof.
  unfold Py.last_item. cbn [rev].
  destruct (rev t ++ [b])%list as [|x r] eqn:E; [|reflexivity].
  now apply app_eq_nil in E.
Qed.

Lemma chain_snoc (l : list element) (x : element) :
  chain l ->
  (forall prev, Py.last_item l = Ok prev -> linked prev x) ->
  chain (l ++ [x]).
Proof.
  induction l as [|a [|b t] IH]; intros Hc Hx.
  - exact I.
  - cbn. split; [apply Hx; reflexivity | exact I].
  - destruct Hc as [Hab Hc]. split; [exact Hab|].
    apply IH; [exact Hc|].
    intros prev Hp. apply Hx. now rewrite last_item_cons.
Qed.

Lemma chain_nth (l : list element) (i : nat) (a b : element) :
  chain l -> nth_error l i = Some a -> nth_error l (S i) = Some b ->
  linked a b.
Proof.
  revert i. induction l as [|x [|y t] IH]; intros i Hc Ha Hb.
  - destruct i; discriminate.
  - destruct i as [|[|i]]; discriminate.
  - destruct Hc as [Hxy Hc]. destruct i as [|i].
    + cbn in Ha, Hb. injection Ha as <-. injection Hb as <-. exact Hxy.
    + apply (IH i); assumption.
Qed.

Section Chain.

Variable np_interp : float -> list float -> list float -> float.
Variable float_pow : float -> float -> float.

Abbreviation build_element :=
  (network_builder.build_element np_interp float_pow).
Abbreviation build_loop := (network_builder.build_loop np_interp float_pow).
Abbreviation build_network :=
  (network_builder.build_network np_interp float_pow).

(** The element of an interior descriptor is linked to the last element of
    the list it is appended to. *)
Lemma build_element_linked (sample_case : network_builder.descriptor)
  (network_list : list element) (inlet_plenum : option Inlet.t)
  (network_obj : element) :
  build_element sample_case network_list inlet_plenum = Ok network_obj ->
  is_interior network_obj = true /\
  exists prev, Py.last_item network_list = Ok prev /\
               linked prev network_obj.
Proof.
  unfold network_builder.build_element. intros Hb.
  do 4 bind_ok Hb. cbn zeta in Hb.
  destruct (String.eqb _ "pipe").
  - do 17 bind_ok Hb. injection Hb as <-.
    split; [reflexivity|].
    match goal with
    | Hl : Py.last_item network_list = Ok ?u,
      Hn : Pipe.new _ _ _ _ _ _ _ _ _ ?u _ _ _ _ = Ok _ |- _ =>
        exists u; split; [first [exact Hl | reflexivity]|];
        apply Pipe_new_upstream in Hn;
        destruct Hn as (Hu & Hi & q & d & Hq & _)
    end.
    intros _. cbn. rewrite Hu. split; [reflexivity|].
    exists q. split; [exact Hq | now rewrite <- Hi].
  - do 8 bind_ok Hb. injection Hb as <-.
    split; [reflexivity|].
    match goal with
    | Hl : Py.last_item network_list = Ok ?u,
      Hn : Junction.new _ _ _ _ _ _ ?u = Ok _ |- _ =>
        exists u; split; [first [exact Hl | reflexivity]|];
        apply Junction_new_upstream in Hn;
        destruct Hn as (Hu & Hi & q & d & Hq & _)
    end.
    intros _. cbn. rewrite Hu. split; [reflexivity|].
    exists q. split; [exact Hq | now rewrite <- Hi].
Qed.

Lemma build_loop_chain (rest : list network_builder.descriptor)
  (n idx : nat) (network_list : list element)
  (inlet_plenum : option Inlet.t) (result : list element) :
  chain network_list ->
  build_loop n idx rest network_list inlet_plenum = Ok result ->
  chain result.
Proof.
  revert idx network_list inlet_plenum.
  induction rest as [|sample_case rest IH];
    intros idx network_list inlet_plenum Hc Hb; cbn in Hb.
  - now injection Hb as <-.
  - destruct (String.eqb _ "inlet").
    + destruct (negb (idx =? 0)); [discriminate|].
      bind_ok Hb. eapply IH; [|exact Hb].
      apply chain_snoc; [exact Hc|]. intros prev _ Hi. discriminate.
    + destruct (String.eqb _ "outlet").
      * destruct (negb (idx =? n - 1)); [discriminate|].
        bind_ok Hb. injection Hb as <-.
        apply chain_snoc; [exact Hc|]. intros prev _ Hi. discriminate.
      * bind_ok Hb. eapply IH; [|exact Hb].
        apply chain_snoc; [exact Hc|]. intros prev Hp.
        destruct (@build_element_linked _ _ _ _ E) as (_ & prev' & Hp' & Hl).
        rewrite Hp in Hp'. now injection Hp' as <-.
Qed.

(** C1.  In every network [build_network] returns, an interior element (a
    Pipe or a Junction) at a position after the first has the element just
    before it for its upstream, and its inlet pressure is that element's
    outlet pressure: both are set, and they are the same float. *)
Theorem chain_invariant (inputs : network_builder.inputs_spec)
  (net : Network.t) (i : nat) (prev e : element) :
  build_network inputs = Ok net ->
  nth_error net.(Network.network_list) i = Some prev ->
  nth_error net.(Network.network_list) (S i) = Some e ->
  is_interior e = true ->
  element_upstream e = Some prev /\
  exists p : float,
    element_inlet_pressure e = Some p /\ get_outlet_pressure prev = Some p.
Proof.
  unfold network_builder.build_network. intros Hb Hp He Hi.
  bind_ok Hb. injection Hb as <-. cbn [Network.network_list] in Hp, He.
  assert (chain a) as Hc by (eapply build_loop_chain; [|exact E]; exact I).
  exact (@chain_nth _ _ _ _ Hc Hp He Hi).
Qed.

End Chain.

(** ** The order of the descriptors *)

Section Order.

Variable np_interp : float -> list float -> list float -> float.
Variable float_pow : float -> float -> float.

Abbreviation build_element :=
  (network_builder.build_element np_interp float_pow).
Abbreviation build_loop := (network_builder.build_loop np_interp float_pow).
Abbreviation build_network :=
  (network_builder.build_network np_interp float_pow).

Lemma build_network_loop (inputs : network_builder.inputs_spec) :
  let run :=
    build_loop (List.length inputs.(network_builder.network)) 0
      inputs.(network_builder.network) [] None in
  is_ok (build_network inputs) = is_ok run /\
  is_IndexError (build_network inputs) = is_IndexError run.
Proof.
  cbn zeta. unfold network_builder.build_network.
  destruct (build_loop _ _ _ _ _); split; reflexivity.
Qed.

(** Without an inlet before it no interior element is built. *)
Lemma build_element_needs_inlet (sample_case : network_builder.descriptor)
  (network_list : list element) :
  is_ok (build_element sample_case network_list None) = false.
Proof.
  unfold network_builder.build_element.
  repeat match goal with
         | |- is_ok (Py.bind ?c _) = false =>
             destruct c; cbn [Py.bind]; [|reflexivity]
         end.
  cbn zeta. destruct (String.eqb _ "pipe");
  repeat match goal with
         | |- is_ok (Py.bind (network_builder.plenum None) _) = false =>
             reflexivity
         | |- is_ok (Py.bind ?c _) = false =>
             destruct c; cbn [Py.bind]; [|reflexivity]
         end.
Qed.

Lemma build_loop_at_misplaced (n idx : nat) (d : network_builder.descriptor)
  (post : list network_builder.descriptor) (network_list : list element)
  (inlet_plenum : option Inlet.t) :
  misplaced n idx d ->
  exists msg, build_loop n idx (d :: post) network_list inlet_plenum
              = Raise (IndexError msg).
Proof.
  intros [[Ht Hi] | [Ht Hi]]; cbn; rewrite Ht; cbn.
  - apply Nat.eqb_neq in Hi. rewrite Hi. cbn. eauto.
  - apply Nat.eqb_neq in Hi. rewrite Hi. cbn. eauto.
Qed.

Lemma build_loop_misplaced (pre : list network_builder.descriptor) :
  forall (n idx : nat) (d : network_builder.descriptor)
         (post : list network_builder.descriptor)
         (network_list : list element) (inlet_plenum : option Inlet.t),
    misplaced n (idx + List.length pre) d ->
    idx + List.length pre < n ->
    is_ok (build_loop n idx (pre ++ d :: post) network_list inlet_plenum)
    = false /\
    (is_ok (build_loop n idx pre network_list inlet_plenum) = true ->
     is_IndexError
       (build_loop n idx (pre ++ d :: post) network_list inlet_plenum)
     = true).
Proof.
  induction pre as [|p pre IH]; intros n idx d post network_list inlet_plenum
    Hm Hlt.
  - rewrite Nat.add_0_r in Hm. cbn [app].
    destruct (build_loop_at_misplaced post network_list inlet_plenum Hm)
      as (msg & ->).
    split; reflexivity.
  - cbn [List.length] in Hm, Hlt. rewrite <- Nat.add_succ_comm in Hm, Hlt.
    cbn [app network_builder.build_loop].
    destruct (String.eqb _ "inlet").
    + destruct (negb (idx =? 0)); [split; [reflexivity | discriminate]|].
      destruct (Py.key_of _ _); cbn [Py.bind];
        [apply IH; assumption | split; [reflexivity | discriminate]].
    + destruct (String.eqb _ "outlet").
      * assert ((idx =? n - 1) = false) as -> by (apply Nat.eqb_neq; lia).
        split; [reflexivity | discriminate].
      * destruct (build_element _ _ _); cbn [Py.bind];
          [apply IH; assumption | split; [reflexivity | discriminate]].
Qed.

(** X16.  The two order tests of [build_network].  A specification with an
    inlet after the first position, or an outlet before the last, is not
    built, and the error is the IndexError of the order whenever the loop
    gets as far as that descriptor, that is, whenever the descriptors before
    it build. *)
Theorem build_order (inputs : network_builder.inputs_spec)
  (pre post : list network_builder.descriptor)
  (d : network_builder.descriptor) :
  inputs.(network_builder.network) = (pre ++ d :: post)%list ->
  (pre <> [] /\ d.(network_builder.type) = "inlet") \/
  (post <> [] /\ d.(network_builder.type) = "outlet") ->
  is_ok (build_network inputs) = false /\
  (is_ok (build_loop (List.length inputs.(network_builder.network)) 0 pre
            [] None) = true ->
   is_IndexError (build_network inputs) = true).
Proof.
  intros Hnet Hcase.
  destruct (build_network_loop inputs) as [-> ->]. rewrite Hnet.
  set (n := List.length (pre ++ d :: post)).
  assert (n = List.length pre + S (List.length post)) as Hn
    by (unfold n; now rewrite length_app).
  assert (misplaced n (0 + List.length pre) d) as Hmis.
  { destruct Hcase as [[Hp Ht] | [Hp Ht]]; [left | right];
      (split; [exact Ht|]); cbn.
    - destruct pre; cbn; congruence.
    - destruct post; [congruence | cbn in Hn; lia]. }
  assert (0 + List.length pre < n) as Hlt by lia.
  exact (@build_loop_misplaced pre n 0 d post [] None Hmis Hlt).
Qed.

End Order.

(** ** Instances on concrete specifications *)

Lemma chain_invariant_witness :
  exists (net : Network.t) (prev e : element),
    network_builder.build_network Example.np_interp Example.float_pow
      Example.chain = Ok net /\
    nth_error net.(Network.network_list) 1 = Some prev /\
    nth_error net.(Network.network_list) 2 = Some e /\
    is_interior e = true /\
    element_upstream e = Some prev /\
    element_inlet_pressure e = Some 494596.20353907533%float /\
    get_outlet_pressure prev = Some 494596.20353907533%float.
Proof.
  destruct (network_builder.build_network _ _ _) as [net|err] eqn:Hb;
    [|vm_compute in Hb; discriminate].
  pose proof Hb as Hv. vm_compute in Hv. injection Hv as Hv. subst net.
  destruct (@chain_invariant _ _ _ _ 1 _ _ Hb eq_refl eq_refl eq_refl)
    as (Hu & p & Hp & Ho).
  do 3 eexists.
  split; [reflexivity|]. split; [reflexivity|]. split; [reflexivity|].
  split; [reflexivity|]. split; [exact Hu|].
  cbn in Hp. injection Hp as <-. split; [reflexivity | exact Ho].
Defined.

(** C5, on the code.  [build_network] tests the place of an inlet and of an
    outlet where its loop meets one (the last two equations), and never that
    the descriptor at index 0 is an inlet.  A specification that starts with
    a pipe or with a junction therefore gets as far as
    [inlet_plenum.mass_flow_rate] with [inlet_plenum] still None and stops
    with AttributeError, where the claim has a structural-order error; a
    lone outlet passes the order test and stops at [network_list[-1]] of the
    empty list.  The descriptors hold numbers only and nothing is called to
    materialize them: the equations hold for every [np_interp] and
    [float_pow]. *)
Theorem first_descriptor_not_checked
  (np_interp : float -> list float -> list float -> float)
  (float_pow : float -> float -> float) :
  let build (network : list network_builder.descriptor) :=
    network_builder.build_network np_interp float_pow
      {| network_builder.inputs_name := "order";
         network_builder.network := network |} in
  build [Example.pipe_numbers; Example.outlet_plenum]
  = Raise (AttributeError
             "'NoneType' object has no attribute 'mass_flow_rate'") /\
  build [Example.junction_numbers; Example.inlet_500kPa;
         Example.outlet_plenum]
  = Raise (AttributeError
             "'NoneType' object has no attribute 'mass_flow_rate'") /\
  build [Example.outlet_plenum]
  = Raise (IndexError "list index out of range") /\
  build [Example.inlet_500kPa; Example.inlet_500kPa]
  = Raise (IndexError "Inlet node should be first, currently 1") /\
  build [Example.inlet_500kPa; Example.outlet_plenum; Example.pipe_numbers]
  = Raise (IndexError "Outlet node should be last, currently 1").
Proof. cbv zeta. repeat split; vm_compute; reflexivity. Qed.

Lemma build_order_witness :
  let inputs :=
    {| network_builder.inputs_name := "outlet early";
       network_builder.network :=
         [Example.inlet_500kPa; Example.outlet_plenum; Example.pipe_side] |} in
  is_ok (network_builder.build_network Example.np_interp Example.float_pow
           inputs) = false /\
  is_IndexError (network_builder.build_network Example.np_interp
                   Example.float_pow inputs) = true.
Proof.
  cbn zeta.
  destruct (@build_order Example.np_interp Example.float_pow
              {| network_builder.inputs_name := "outlet early";
                 network_builder.network :=
                   [Example.inlet_500kPa; Example.outlet_plenum;
                    Example.pipe_side] |}
              [Example.inlet_500kPa] [Example.pipe_side]
              Example.outlet_plenum eq_refl)
    as (Hf & Hi).
  - right. split; [discriminate | reflexivity].
  - split; [exact Hf|]. apply Hi. vm_compute; reflexivity.
Defined.

Example unknown_reference :
  network_builder.resolve_refs
    [ ("inlet_area", VStr "${geom.inlet_area}"); ("n", VNum 3%float);
      ("outlet_area", VStr "${geom.missing}") ]
    [ ("geom", [("inlet_area", VNum 0.5%float)]); ("loss", []) ] "geom"
  = Raise (KeyError "Unknown geom reference: ${geom.missing}").
Proof. vm_compute; reflexivity. Qed.

Example resolved_references :
  network_builder.resolve_refs
    [ ("inlet_area", VStr "${geom.inlet_area}"); ("n", VNum 3%float);
      ("label", VStr "geom.inlet_area") ]
    [ ("geom", [("inlet_area", VNum 0.5%float)]); ("loss", []) ] "geom"
  = Ok [ ("inlet_area", VNum 0.5%float); ("n", VNum 3%float);
         ("label", VStr "geom.inlet_area") ].
Proof. vm_compute; reflexivity. Qed.

Lemma loss_references_resolved_witness :
  exists (m : dict (dict value)) (dl : dict value),
    network_builder.materialize Example.np_interp Example.float_pow
      Example.junction_expansion = Ok m /\
    Py.get m "loss" = Some dl /\
    Py.get dl "form" = Some (VNum 0.5625%float).
Proof.
  destruct (network_builder.materialize _ _ _) as [m|err] eqn:Hm;
    [|vm_compute in Hm; discriminate].
  destruct (proj2 (proj2 (loss_references_resolved Example.np_interp
                            Example.float_pow)) _ _ Hm)
    as (G & L & mg & g & dl & HG & HL & Hmg & _ & Hg & _ & Hdl & Hcalls).
  injection HG as <-. injection HL as <-.
  vm_compute in Hmg. injection Hmg as <-.
  injection Hg as <-.
  destruct (Hcalls "form" "sudden_expansion"
              [ ("inlet_area", VStr "${geom.inlet_area}");
                ("outlet_area", VStr "${geom.outlet_area}") ])
    as (kw' & f & v & Hres & Hf & Hcall & Hv).
  - left; reflexivity.
  - discriminate.
  - vm_compute in Hres. injection Hres as <-.
    injection Hf as <-.
    vm_compute in Hcall. injection Hcall as <-.
    exists m, dl. split; [reflexivity|]. split; [exact Hdl|].
    apply Hv. repeat constructor. intros [].
Defined.

(** X4.  The three-element specification of an inlet at 500 kPa, 2 kg/s and
    1.2 kg/m^3, the level pipe [Example.pipe_side] and an outlet builds three
    elements; the gravity and acceleration terms of the pipe are zero and
    its outlet pressure is 500000 - dp_loss.  The squares are taken by the
    stand-in for [pow]; the two velocities of the pipe are one float, so
    that the acceleration term is zero for every [pow] that is finite
    there. *)
Theorem end_to_end_example
  (np_interp : float -> list float -> list float -> float) :
  exists (inlet : Inlet.t) (pipe : Pipe.t element) (outlet : Outlet.t element)
         (dp_loss : float),
    network_builder.build_network np_interp Example.float_pow
      {| network_builder.inputs_name := "end to end";
         network_builder.network :=
           [Example.inlet_500kPa; Example.pipe_side; Example.outlet_plenum] |}
    = Ok (Network.mk "end to end" [EInlet inlet; EPipe pipe; EOutlet outlet]) /\
    pipe.(Pipe.dp_loss) = Some dp_loss /\
    pipe.(Pipe.dp_gravity) = Some 0%float /\
    pipe.(Pipe.dp_accel) = Some 0%float /\
    pipe.(Pipe.inlet_pressure) = Some 500000%float /\
    pipe.(Pipe.outlet_pressure) = Some (500000 - dp_loss)%float /\
    outlet.(Outlet.last_node) = EPipe pipe.
Proof.
  do 4 eexists. split; [vm_compute; reflexivity|].
  repeat split; vm_compute; reflexivity.
Qed.

Lemma Pipe_constructs_witness :
  is_ok (Pipe.new Example.float_pow "p1" 1 0.1 0.02 2 1.2 0.5 0.25
           (EInlet Example.plenum) 0.5
           "down" None None) = true.
Proof.
  apply (@Pipe_constructs element _ Example.float_pow "p1" 1 0.1 0.02 2 1.2 0.5 0.25
           (EInlet Example.plenum) 0.5 "down" None None 500000)%float;
    vm_compute; reflexivity.
Defined.

Lemma Junction_constructs_witness :
  is_ok (Junction.new Example.float_pow "j1" 0.5 0.5625 2 1.2
           (EInlet Example.plenum)) = true.
Proof.
  apply (@Junction_constructs element _ Example.float_pow "j1" 0.5 0.5625 2 1.2
           (EInlet Example.plenum) 500000)%float;
    vm_compute; reflexivity.
Defined.

(** ** Float comparisons *)

Lemma eqb_leb (x y : float) :
  (x =? y)%float = true -> (x <=? y)%float = true.
Proof.
  rewrite eqb_spec, leb_spec. unfold SFeqb, SFleb.
  destruct (SFcompare _ _) as [[| |]|]; congruence.
Qed.

Lemma ltb_leb (x y : float) :
  (x <? y)%float = true -> (x <=? y)%float = true.
Proof.
  rewrite ltb_spec, leb_spec. unfold SFltb, SFleb.
  destruct (SFcompare _ _) as [[| |]|]; congruence.
Qed.

Lemma positive_not_zero (x : float) :
  (x <=? 0)%float = false -> is_zero x = false.
Proof.
  intros H. destruct (is_zero x) eqn:E; [|reflexivity].
  apply eqb_leb in E. unfold zero in E. congruence.
Qed.


(** ** The libraries, beyond their argument tests *)

(** X13.  [area_capsule_slot] tests its arguments once: past its own test
    the tests of [area_rectangle] and [area_circle] never fail, and the area
    is L * b + pi * b^2 / 4. *)
Theorem area_capsule_slot_checks_once
  (float_pow : float -> float -> float) (b L : float) :
  pdrop_funcs.area_capsule_slot float_pow b L =
  if (b <? 0)%float || (L <? 0)%float
  then Raise (ValueError "b and L must be non-negative.")
  else b2 <- Py.pow2 float_pow b ;; Ok (L * b + pi * b2 / 4.0)%float.
Proof.
  unfold pdrop_funcs.area_capsule_slot, pdrop_funcs.area_rectangle,
    pdrop_funcs.area_circle.
  destruct ((b <? 0)%float || (L <? 0)%float) eqn:E; [reflexivity|].
  apply orb_false_elim in E. destruct E as [-> ->]. cbn.
  destruct (Py.pow2 float_pow b); reflexivity.
Qed.

Section Guarded.

Variable np_interp : float -> list float -> list float -> float.
Variable float_pow : float -> float -> float.

(** X9.  The argument tests of the loss library cover its divisors:
    [sudden_contraction], [f_annulus_turbulent],
    [sharp_thick_inlet_facing_baffle] and
    [discharge_from_straight_tube_to_baffle] return a coefficient or raise
    ValueError, for all floats, NaN included.  The beveled contractions test
    the areas and not the hydraulic diameter: past the tests they raise
    ZeroDivisionError when it is zero, and only then. *)
Theorem loss_divisions_guarded
  (lambda_circ D_outer D_inner inlet_area outlet_area baffle_gap bevel_length
   hydraulic_diameter : float) :
  let returns_or_ValueError (r : result float) := is_ok r || is_ValueError r in
  returns_or_ValueError
    (loss_utils.sudden_contraction np_interp inlet_area outlet_area) = true /\
  returns_or_ValueError
    (loss_utils.f_annulus_turbulent lambda_circ D_outer D_inner) = true /\
  returns_or_ValueError
    (loss_utils.sharp_thick_inlet_facing_baffle np_interp baffle_gap
       hydraulic_diameter) = true /\
  returns_or_ValueError
    (loss_utils.discharge_from_straight_tube_to_baffle np_interp baffle_gap
       hydraulic_diameter) = true /\
  (forall y,
     let r := loss_utils.beveled_contraction np_interp float_pow y
                bevel_length hydraulic_diameter inlet_area outlet_area in
     (is_zero hydraulic_diameter = false -> returns_or_ValueError r = true) /\
     (is_zero hydraulic_diameter = true ->
      is_ZeroDivisionError r || is_ValueError r = true) /\
     (is_ZeroDivisionError r = true -> is_zero hydraulic_diameter = true)).
Proof.
  cbn zeta. repeat match goal with |- _ /\ _ => split end.
  - unfold loss_utils.sudden_contraction.
    destruct ((inlet_area <=? 0)%float || (outlet_area <=? 0)%float) eqn:E;
      [reflexivity|].
    apply orb_false_elim in E. destruct E as [Ei _].
    now rewrite (div_ok _ (positive_not_zero Ei)).
  - unfold loss_utils.f_annulus_turbulent.
    destruct ((D_outer <=? 0.0)%float || (D_inner <=? 0.0)%float) eqn:E;
      [reflexivity|].
    apply orb_false_elim in E. destruct E as [Eo _].
    destruct (negb (D_inner <? D_outer)%float); [reflexivity|].
    destruct (lambda_circ <=? 0.0)%float eqn:El; [reflexivity|].
    rewrite (div_ok _ (positive_not_zero Eo)); cbn [Py.bind].
    rewrite (div_ok _ (positive_not_zero El)); cbn [Py.bind].
    match goal with
    | |- context [if (?v <=? 0.0)%float then _ else _] =>
        destruct (v <=? 0.0)%float eqn:Ev; [reflexivity|];
        now rewrite (div_ok _ (positive_not_zero Ev))
    end.
  - unfold loss_utils.sharp_thick_inlet_facing_baffle.
    destruct (hydraulic_diameter <=? 0.0)%float eqn:E; [reflexivity|].
    now rewrite (div_ok _ (positive_not_zero E)).
  - unfold loss_utils.discharge_from_straight_tube_to_baffle.
    destruct (hydraulic_diameter <=? 0.0)%float eqn:E; [reflexivity|].
    now rewrite (div_ok _ (positive_not_zero E)).
  - intros y. unfold loss_utils.beveled_contraction.
    destruct ((inlet_area <=? 0.0)%float || (outlet_area <=? 0.0)%float) eqn:E;
      [repeat split; (reflexivity || discriminate)|].
    apply orb_false_elim in E. destruct E as [Ei _].
    rewrite (div_ok _ (positive_not_zero Ei)); cbn [Py.bind].
    destruct (negb _); [repeat split; (reflexivity || discriminate)|].
    unfold Py.div. destruct (is_zero hydraulic_diameter); cbn;
      repeat split; intros; (reflexivity || discriminate).
Qed.

(** X10.  Past its argument test [sudden_contraction] looks the table up at
    a ratio clamped to the table's range: the quotient outlet_area /
    inlet_area when it lies strictly between 0 and 1, and otherwise 0 or 1
    (1 for a NaN quotient); the lookup never leaves [0, 1]. *)
Theorem sudden_contraction_query_in_table (inlet_area outlet_area : float) :
  (inlet_area <=? 0)%float || (outlet_area <=? 0)%float = false ->
  exists r : float,
    loss_utils.sudden_contraction np_interp inlet_area outlet_area
    = Ok (np_interp r [0.0; 0.2; 0.4; 0.6; 0.8; 0.9; 1.0]%float
            [1.00; 0.85; 0.68; 0.503; 0.300; 0.178; 0.00]%float) /\
    (0 <=? r)%float = true /\ (r <=? 1)%float = true /\
    let q := (outlet_area / inlet_area)%float in
    (r = q /\ (0 <? q)%float = true /\ (q <? 1)%float = true) \/
    (r = 0%float /\ (0 <? q)%float = false /\ (q <? 1)%float = true) \/
    (r = 1%float /\ (q <? 1)%float = false).
Proof.
  intros E. unfold loss_utils.sudden_contraction. rewrite E.
  apply orb_false_elim in E. destruct E as [Ei _].
  rewrite (div_ok _ (positive_not_zero Ei)); cbn [Py.bind].
  set (q := (outlet_area / inlet_area)%float).
  unfold Py.min, Py.max.
  destruct (q <? 1.0)%float eqn:E1.
  - destruct (0.0 <? q)%float eqn:E0.
    + exists q. split; [reflexivity|].
      split; [now apply ltb_leb|]. split; [now apply ltb_leb|]. auto.
    + exists 0%float. repeat split; auto.
  - change (0.0 <? 1.0)%float with true. cbn iota.
    exists 1%float. repeat split; auto.
Qed.

End Guarded.

Lemma sudden_contraction_query_in_table_witness :
  exists r : float,
    loss_utils.sudden_contraction Example.np_interp 2 1
    = Ok (Example.np_interp r [0.0; 0.2; 0.4; 0.6; 0.8; 0.9; 1.0]%float
            [1.00; 0.85; 0.68; 0.503; 0.300; 0.178; 0.00]%float) /\
    (0 <=? r)%float = true /\ (r <=? 1)%float = true.
Proof.
  destruct (@sudden_contraction_query_in_table Example.np_interp 2 1 eq_refl)
    as (r & Hr & H0 & H1 & _).
  exists r. auto.
Defined.

(** ** Recomputing an element *)

Section Recompute.

Context {U : Type} `{HasOutletPressure U}.

Variable float_pow : float -> float -> float.

(** X11.  [compute] may be called again on an element that was constructed:
    it returns, and the element is as it was.  Every computed attribute is
    assigned from the attributes given to the constructor and from the
    upstream outlet pressure alone. *)
Theorem compute_idempotent (name : string)
  (length hydraulic_diameter friction_factor form_loss mass_flow_rate density
   inlet_area outlet_area : float) (upstream : U) (ref_area : float)
  (flow_direction : string) (alpha1 alpha2 : option float)
  (p : Pipe.t U) (j : Junction.t U) :
  Pipe.new float_pow name length hydraulic_diameter friction_factor
    mass_flow_rate density inlet_area outlet_area upstream ref_area
    flow_direction alpha1 alpha2 = Ok p ->
  Junction.new float_pow name ref_area form_loss mass_flow_rate density
    upstream = Ok j ->
  Pipe.compute float_pow p = (Ok tt, p) /\ Junction.compute float_pow j = (Ok tt, j).
Proof.
  rewrite Pipe_new_eq, Junction_new_eq.
  destruct (get_outlet_pressure upstream) as [p0|] eqn:Hup; [|discriminate].
  cbn zeta.
  destruct (Py.div mass_flow_rate (density * inlet_area)) as [vi|] eqn:Ei;
    [cbn [Py.bind]|discriminate].
  destruct (Py.div mass_flow_rate (density * outlet_area)) as [vo|] eqn:Eo;
    [cbn [Py.bind]|discriminate].
  destruct (Py.div mass_flow_rate (density * ref_area)) as [vr|] eqn:Er;
    [cbn [Py.bind]|discriminate].
  destruct (Py.pow2 float_pow vr) as [vr2|] eqn:Er2; [cbn [Py.bind]|discriminate].
  destruct (Py.div length hydraulic_diameter) as [r|] eqn:Eh;
    [cbn [Py.bind]|discriminate].
  destruct (Pipe.direction_sign flow_direction) as [sign|] eqn:Es;
    [cbn [Py.bind]|discriminate].
  destruct (Py.pow2 float_pow vo) as [vo2|] eqn:Eo2; [cbn [Py.bind]|discriminate].
  destruct (Py.pow2 float_pow vi) as [vi2|] eqn:Ei2; [cbn [Py.bind]|discriminate].
  intros [= <-] [= <-]. split.
  - unfold Pipe.compute, Method.bind, Method.eval, Method.assign; cbn.
    rewrite Hup; cbn. rewrite Ei; cbn. rewrite Eo; cbn. rewrite Er; cbn.
    rewrite Er2; cbn. rewrite Eh; cbn. rewrite Es; cbn.
    rewrite Eo2; cbn. rewrite Ei2; cbn. rewrite Hup; cbn. reflexivity.
  - unfold Junction.compute, Method.bind, Method.eval, Method.assign; cbn.
    rewrite Hup; cbn. rewrite Er; cbn. rewrite Er2; cbn. rewrite Hup; cbn.
    reflexivity.
Qed.

End Recompute.

Lemma compute_idempotent_witness :
  exists (p : Pipe.t element) (j : Junction.t element),
    Pipe.new Example.float_pow "e" 1 0.1 0.02 2 1.2 0.5 0.25 (EInlet Example.plenum) 0.5
      "down" None None = Ok p /\
    Junction.new Example.float_pow "e" 0.5 0.5625 2 1.2
      (EInlet Example.plenum) = Ok j /\
    Pipe.compute Example.float_pow p = (Ok tt, p) /\
    Junction.compute Example.float_pow j = (Ok tt, j).
Proof.
  destruct (Pipe.new _ _ _ _ _ _ _ _ _ _ _ _ _ _) as [p|e] eqn:Hp;
    [|vm_compute in Hp; discriminate].
  destruct (Junction.new _ _ _ _ _ _ _) as [j|e] eqn:Hj;
    [|vm_compute in Hj; discriminate].
  exists p, j. split; [reflexivity|]. split; [reflexivity|].
  exact (@compute_idempotent _ _ _ _ _ _ _ _ _ _ _ _ _ _ _ _ _ _ _ Hp Hj).
Defined.

(** ** Parameter maps without references *)

Lemma setitem_new {V : Type} (d : dict V) (k : string) (v : V) :
  ~ In k (map fst d) -> Py.setitem d k v = (d ++ [(k, v)])%list.
Proof.
  induction d as [|[k' v'] d IH]; cbn; [reflexivity|].
  intros Hn. destruct (String.eqb k' k) eqn:E.
  - apply String.eqb_eq in E. tauto.
  - rewrite IH; tauto.
Qed.

Lemma resolve_items_plain (spec_type : string) (m : dict (dict value))
  (items out : dict value) :
  (forall k v, In (k, v) items -> is_token spec_type v = false) ->
  NoDup (map fst (out ++ items)) ->
  network_builder.resolve_items items m spec_type out
  = Ok (out ++ items)%list.
Proof.
  revert out. induction items as [|[k v] items IH]; intros out Hplain Hnd.
  - now rewrite app_nil_r.
  - assert (is_token spec_type v = false) as Hv by (eapply Hplain; now left).
    assert (network_builder.resolve_items ((k, v) :: items) m spec_type out
            = network_builder.resolve_items items m spec_type
                (Py.setitem out k v)) as ->.
    { destruct v as [x|s| |fn kw]; try reflexivity.
      cbn in Hv |- *. now rewrite Hv. }
    rewrite map_app in Hnd. cbn in Hnd.
    assert (~ In k (map fst out)) as Hk.
    { intros Hin. apply NoDup_remove_2 in Hnd. apply Hnd.
      apply in_or_app. now left. }
    rewrite (@setitem_new _ out k v Hk).
    rewrite IH.
    + now rewrite <- app_assoc.
    + intros k' v' Hin. eapply Hplain. right. exact Hin.
    + rewrite <- app_assoc. cbn. now rewrite map_app.
Qed.

(** X8.  On a parameter map none of whose values is a reference token of
    [spec_type], [resolve_refs] returns the map as it is, key for key and in
    the same order, whatever [materialized] holds: it does not look at it. *)
Theorem resolve_refs_without_tokens (spec_type : string)
  (materialized : dict (dict value)) (func_kwargs : dict value) :
  NoDup (map fst func_kwargs) ->
  (forall k v, In (k, v) func_kwargs -> is_token spec_type v = false) ->
  network_builder.resolve_refs func_kwargs materialized spec_type
  = Ok func_kwargs.
Proof.
  intros Hnd Hplain. rewrite resolve_refs_items.
  now rewrite resolve_items_plain.
Qed.

Lemma resolve_refs_without_tokens_witness :
  network_builder.resolve_refs
    [ ("D", VNum 0.1%float); ("label", VStr "${loss.form}");
      ("open", VStr "${geom.inlet_area") ] [] "geom"
  = Ok [ ("D", VNum 0.1%float); ("label", VStr "${loss.form}");
         ("open", VStr "${geom.inlet_area") ].
Proof.
  apply resolve_refs_without_tokens.
  - repeat constructor; cbn; intuition discriminate.
  - intros k v [[= <- <-] | [[= <- <-] | [[= <- <-] | []]]]; reflexivity.
Defined.

(** ** What the materialized maps hold *)

Section Materialized.

Variable np_interp : float -> list float -> list float -> float.
Variable float_pow : float -> float -> float.

Abbreviation LOSS_REGISTRY := (network_builder.LOSS_REGISTRY np_interp float_pow).
Abbreviation materialize_entry :=
  (network_builder.materialize_entry np_interp float_pow).
Abbreviation materialize_items :=
  (network_builder.materialize_items np_interp float_pow).
Abbreviation materialize := (network_builder.materialize np_interp float_pow).

Abbreviation registry_of := (registry_of np_interp float_pow).
Abbreviation entry_value := (entry_value np_interp float_pow).

Lemma materialize_entry_value (name nest key : string) (spec : value)
  (m m' : dict (dict value)) :
  materialize_entry name nest key spec m = Ok m' ->
  exists d x,
    Py.get m nest = Some d /\
    Py.get m' nest = Some (Py.setitem d key x) /\
    entry_value nest key spec x.
Proof.
  unfold network_builder.materialize_entry, entry_value, passes_through.
  assert (forall x, network_builder.store m nest key x = Ok m' ->
            exists d, Py.get m nest = Some d /\
                      Py.get m' nest = Some (Py.setitem d key x)) as Hstore.
  { intros x Hx. destruct (@store_inv _ _ _ _ _ Hx) as (_ & d & Hd & Hd').
    eauto. }
  destruct spec as [x|s| |fn kw].
  - intros Hs. destruct (Hstore _ Hs) as (d & Hd & Hd'). eauto.
  - destruct (String.eqb key "flow_direction"); [|discriminate].
    intros Hs. destruct (Hstore _ Hs) as (d & Hd & Hd'). eauto.
  - destruct (String.eqb key "flow_direction"); [|discriminate].
    intros Hs. destruct (Hstore _ Hs) as (d & Hd & Hd'). eauto.
  - destruct (String.eqb key "flow_direction").
    + intros Hs. destruct (Hstore _ Hs) as (d & Hd & Hd'). eauto.
    + intros Hm. bind_ok Hm. rename a into kw'. bind_ok Hm. rename a into f.
      bind_ok Hm. rename a into x.
      destruct (Hstore _ Hm) as (d & Hd & Hd').
      exists d, x. split; [exact Hd|]. split; [exact Hd'|].
      exists fn, kw, kw', f. split; [reflexivity|]. split.
      * intros ->. cbn in E. now injection E as <-.
      * unfold registry_of. unfold Py.getitem in E0.
        destruct (Py.get _ fn) as [f'|]; [|discriminate].
        injection E0 as ->. auto.
Qed.

Lemma materialize_items_values (name nest : string) (items : dict value) :
  forall (m m' : dict (dict value)) (d0 : dict value),
    Py.get m nest = Some d0 ->
    materialize_items name nest items m = Ok m' ->
    exists d',
      Py.get m' nest = Some d' /\
      (forall k, ~ In k (map fst items) -> Py.get d' k = Py.get d0 k) /\
      (forall k, In k (map fst items) -> Py.get d' k <> None) /\
      (NoDup (map fst items) ->
       forall key spec, In (key, spec) items ->
       exists x, Py.get d' key = Some x /\ entry_value nest key spec x) /\
      (forall k x, Py.get d' k = Some x ->
       Py.get d0 k = Some x \/
       exists spec, In (k, spec) items /\ entry_value nest k spec x).
Proof.
  induction items as [|[key spec] items IH]; intros m m' d0 Hd0 Hm; cbn in Hm.
  - injection Hm as <-. exists d0. split; [exact Hd0|]. split; [reflexivity|].
    split; [intros k []|]. split; [intros _ ? ? []|]. auto.
  - bind_ok Hm. rename a into m1.
    destruct (materialize_entry_value _ _ _ _ _ E) as (d & x & Hd & Hd1 & Hx).
    rewrite Hd0 in Hd. injection Hd as <-.
    destruct (IH _ _ _ Hd1 Hm) as (d' & Hd' & Hkeep & Hin & Hval & Horg).
    exists d'. split; [exact Hd'|]. split; [|split; [|split]].
    + intros k Hk. cbn in Hk. rewrite Hkeep by tauto.
      apply get_setitem_other. tauto.
    + intros k Hk. destruct (in_dec string_dec k (map fst items)) as [Hi|Hi].
      * now apply Hin.
      * rewrite Hkeep by exact Hi. cbn in Hk.
        destruct Hk as [<- | Hk]; [|contradiction].
        rewrite get_setitem_same. discriminate.
    + intros Hnd key' spec' [[= <- <-] | Hin'];
        inversion Hnd as [|? ? Hni Hnd']; subst.
      * exists x. split; [|exact Hx].
        rewrite Hkeep by exact Hni. apply get_setitem_same.
      * now apply Hval.
    + intros k y Hy. destruct (Horg _ _ Hy) as [Hy1 | (spec' & Hin' & He)].
      * destruct (string_dec k key) as [-> | Hk].
        -- rewrite get_setitem_same in Hy1. injection Hy1 as <-.
           right. exists spec. split; [left; reflexivity | exact Hx].
        -- rewrite get_setitem_other in Hy1 by congruence. now left.
      * right. exists spec'. split; [right; exact Hin' | exact He].
Qed.

(** [materialize], read backwards: the keys of the two maps, what each
    entry stores, and where each stored value comes from. *)
Lemma materialize_inv (sample_case : network_builder.descriptor)
  (m : dict (dict value)) :
  materialize sample_case = Ok m ->
  exists G L g l : dict value,
    sample_case.(network_builder.geom) = Some G /\
    sample_case.(network_builder.loss) = Some L /\
    Py.get m "geom" = Some g /\
    Py.get m "loss" = Some l /\
    (forall k, In k (map fst G) <-> Py.get g k <> None) /\
    (forall k, In k (map fst L) <-> Py.get l k <> None) /\
    (NoDup (map fst G) ->
     forall key spec, In (key, spec) G ->
     exists x, Py.get g key = Some x /\ entry_value "geom" key spec x) /\
    (NoDup (map fst L) ->
     forall key spec, In (key, spec) L ->
     exists x, Py.get l key = Some x /\ entry_value "loss" key spec x) /\
    (forall k x, Py.get g k = Some x ->
     exists spec, In (k, spec) G /\ entry_value "geom" k spec x).
Proof.
  intros Hm. unfold network_builder.materialize in Hm.
  destruct (network_builder.geom sample_case) as [G|]; [cbn in Hm|discriminate].
  bind_ok Hm. rename a into mg.
  destruct (network_builder.loss sample_case) as [L|]; [cbn in Hm|discriminate].
  destruct (@materialize_items_values _ "geom" G
              [("geom", []); ("loss", [])] _ [] eq_refl E)
    as (g & Hg & Hgk & Hgi & Hgv & Hgo).
  destruct (@materialize_items_frame _ _ _ _ _ _ _ E) as (Hfg & _).
  assert (Py.get mg "loss" = Some []) as Hl0
    by (rewrite Hfg; [reflexivity | discriminate]).
  destruct (@materialize_items_values _ "loss" L _ _ [] Hl0 Hm)
    as (l & Hl & Hlk & Hli & Hlv & _).
  destruct (@materialize_items_frame _ _ _ _ _ _ _ Hm) as (Hfl & _).
  assert (Py.get m "geom" = Some g) as Hg'
    by (rewrite Hfl; [exact Hg | discriminate]).
  exists G, L, g, l.
  split; [reflexivity|]. split; [reflexivity|].
  split; [exact Hg'|]. split; [exact Hl|].
  split; [|split; [|split; [exact Hgv | split; [exact Hlv|]]]].
  - intros k. split; [apply Hgi|].
    intros Hk. destruct (in_dec string_dec k (map fst G)) as [Hi|Hi]; auto.
    rewrite Hgk in Hk by exact Hi. now contradiction Hk.
  - intros k. split; [apply Hli|].
    intros Hk. destruct (in_dec string_dec k (map fst L)) as [Hi|Hi]; auto.
    rewrite Hlk in Hk by exact Hi. now contradiction Hk.
  - intros k x Hx. destruct (Hgo _ _ Hx) as [Hx0 | Hs]; [discriminate | exact Hs].
Qed.

(** X7.  When [materialize] returns, its two maps hold exactly the keys of
    the descriptor's [geom] and [loss] maps.  An entry that is a number, or
    that sits under the key "flow_direction", is stored as it is written.
    Every other entry is a function call whose function the registry of its
    map holds, and what is stored is the result of that function; a [geom]
    function is called on the parameters as they are written, without any
    resolution of references. *)
Theorem materialized_values (sample_case : network_builder.descriptor)
  (m : dict (dict value)) :
  materialize sample_case = Ok m ->
  exists G L g l : dict value,
    sample_case.(network_builder.geom) = Some G /\
    sample_case.(network_builder.loss) = Some L /\
    Py.get m "geom" = Some g /\
    Py.get m "loss" = Some l /\
    (forall k, In k (map fst G) <-> Py.get g k <> None) /\
    (forall k, In k (map fst L) <-> Py.get l k <> None) /\
    (NoDup (map fst G) ->
     forall key spec, In (key, spec) G ->
     exists x, Py.get g key = Some x /\ entry_value "geom" key spec x) /\
    (NoDup (map fst L) ->
     forall key spec, In (key, spec) L ->
     exists x, Py.get l key = Some x /\ entry_value "loss" key spec x).
Proof.
  intros Hm.
  destruct (materialize_inv _ Hm)
    as (G & L & g & l & HG & HL & Hg & Hl & Hgk & Hlk & Hgv & Hlv & _).
  exists G, L, g, l. auto 10.
Qed.

End Materialized.

(** ** What the builder makes of each descriptor *)

Lemma div_inv (x y q : float) : Py.div x y = Ok q -> q = (x / y)%float.
Proof. unfold Py.div. destruct (is_zero y); congruence. Qed.

Section Shapes.

Context {U : Type} `{HasOutletPressure U}.

Variable float_pow : float -> float -> float.

(** A constructed Pipe keeps the arguments of the call, and every computed
    attribute of it is assigned. *)
Lemma Pipe_new_shape (name : string)
  (length hydraulic_diameter friction_factor mass_flow_rate density
   inlet_area outlet_area : float) (upstream : U) (ref_area : float)
  (flow_direction : string) (alpha1 alpha2 : option float) (p : Pipe.t U) :
  Pipe.new float_pow name length hydraulic_diameter friction_factor
    mass_flow_rate density inlet_area outlet_area upstream ref_area
    flow_direction alpha1 alpha2 = Ok p ->
  exists a1 a2 vi vo vr dl dg da pd p0 p1,
    p = Pipe.mk name length hydraulic_diameter friction_factor
          mass_flow_rate density inlet_area outlet_area upstream ref_area
          flow_direction a1 a2 (Some vi) (Some vo) (Some vr) (Some dl)
          (Some dg) (Some da) (Some pd) (Some p0) (Some p1).
Proof.
  rewrite Pipe_new_eq.
  destruct (get_outlet_pressure upstream) as [p0|]; [|discriminate].
  cbn zeta. intros Hp. do 8 bind_ok Hp. injection Hp as <-.
  repeat eexists.
Qed.

Lemma Pipe_new_direction (name : string)
  (length hydraulic_diameter friction_factor mass_flow_rate density
   inlet_area outlet_area : float) (upstream : U) (ref_area : float)
  (flow_direction : string) (alpha1 alpha2 : option float) (p : Pipe.t U) :
  Pipe.new float_pow name length hydraulic_diameter friction_factor
    mass_flow_rate density inlet_area outlet_area upstream ref_area
    flow_direction alpha1 alpha2 = Ok p ->
  exists sign, Pipe.direction_sign flow_direction = Ok sign.
Proof.
  rewrite Pipe_new_eq.
  destruct (get_outlet_pressure upstream) as [p0|]; [|discriminate].
  cbn zeta. intros Hp. do 5 bind_ok Hp.
  destruct (Pipe.direction_sign flow_direction) as [sign|]; [eauto|discriminate].
Qed.

Lemma Junction_new_shape (name : string)
  (ref_area form_loss mass_flow_rate density : float) (upstream : U)
  (j : Junction.t U) :
  Junction.new float_pow name ref_area form_loss mass_flow_rate density
    upstream = Ok j ->
  exists v dl pd p0 p1,
    j = Junction.mk name ref_area form_loss mass_flow_rate density upstream
          (Some v) (Some dl) (Some pd) (Some p0) (Some p1).
Proof.
  rewrite Junction_new_eq.
  destruct (get_outlet_pressure upstream) as [p0|]; [|discriminate].
  intros Hj. do 2 bind_ok Hj. cbn zeta in Hj. injection Hj as <-.
  repeat eexists.
Qed.

End Shapes.

Section Built.

Variable np_interp : float -> list float -> list float -> float.
Variable float_pow : float -> float -> float.

Abbreviation build_element :=
  (network_builder.build_element np_interp float_pow).
Abbreviation build_loop := (network_builder.build_loop np_interp float_pow).
Abbreviation build_network :=
  (network_builder.build_network np_interp float_pow).

Lemma build_element_shape (sample_case : network_builder.descriptor)
  (network_list : list element) (inlet_plenum : option Inlet.t)
  (network_obj : element) :
  build_element sample_case network_list inlet_plenum = Ok network_obj ->
  computed network_obj /\
  exists i ra,
    inlet_plenum = Some i /\
    sample_case.(network_builder.ref_area) = Some ra /\
    match network_obj with
    | EPipe p =>
        sample_case.(network_builder.type) = "pipe" /\
        p.(Pipe.name) = sample_case.(network_builder.name) /\
        p.(Pipe.mass_flow_rate) = i.(Inlet.mass_flow_rate) /\
        p.(Pipe.density) = i.(Inlet.density)
    | EJunction j =>
        sample_case.(network_builder.type) <> "pipe" /\
        j.(Junction.name) = sample_case.(network_builder.name) /\
        j.(Junction.density) = i.(Inlet.density) /\
        j.(Junction.mass_flow_rate)
        = (i.(Inlet.mass_flow_rate) / flow_splits_of ra)%float
    | _ => False
    end.
Proof.
  unfold network_builder.build_element. intros Hb.
  do 2 bind_ok Hb.
  destruct (network_builder.ref_area sample_case) as [ra|] eqn:Hra;
    [cbn [Py.key_of Py.bind] in Hb|discriminate].
  bind_ok Hb. cbn zeta in Hb.
  destruct inlet_plenum as [i|].
  2:{ destruct (String.eqb _ "pipe"); repeat bind_ok Hb; discriminate. }
  destruct (String.eqb _ "pipe") eqn:Ht.
  - apply String.eqb_eq in Ht. do 5 bind_ok Hb.
    cbn [network_builder.plenum Py.bind] in Hb.
    do 11 bind_ok Hb. injection Hb as <-.
    match goal with
    | Hn : Pipe.new _ _ _ _ _ _ _ _ _ _ _ _ _ _ = Ok _ |- _ =>
        apply Pipe_new_shape in Hn;
        destruct Hn as (? & ? & ? & ? & ? & ? & ? & ? & ? & ? & ? & ->)
    end.
    split; [cbn; repeat split; discriminate|].
    exists i, ra. cbn. repeat split; auto.
  - apply String.eqb_neq in Ht.
    cbn [network_builder.plenum Py.bind] in Hb.
    do 7 bind_ok Hb. injection Hb as <-.
    match goal with
    | Hd : Py.div _ _ = Ok _ |- _ => apply div_inv in Hd
    end.
    match goal with
    | Hn : Junction.new _ _ _ _ _ _ _ = Ok _ |- _ =>
        apply Junction_new_shape in Hn;
        destruct Hn as (? & ? & ? & ? & ? & ->)
    end.
    split; [cbn; repeat split; discriminate|].
    exists i, ra. cbn. repeat split; auto.
Qed.

Lemma build_loop_from_inlet (i : Inlet.t)
  (rest : list network_builder.descriptor) :
  forall (n idx : nat) (network_list result : list element),
    idx <> 0 -> idx + List.length rest = n ->
    build_loop n idx rest network_list (Some i) = Ok result ->
    exists els, result = (network_list ++ els)%list /\
                Forall2 (built_from i) rest els /\
                Forall computed els.
Proof.
  induction rest as [|d rest IH]; intros n idx network_list result Hi Hn Hb;
    cbn in Hb.
  - injection Hb as <-. exists []. rewrite app_nil_r. auto.
  - destruct (String.eqb _ "inlet") eqn:Ht.
    { apply Nat.eqb_neq in Hi. rewrite Hi in Hb. discriminate. }
    apply String.eqb_neq in Ht.
    destruct (String.eqb _ "outlet") eqn:Ho.
    + apply String.eqb_eq in Ho.
      destruct (idx =? n - 1) eqn:Hlast; [cbn in Hb|discriminate].
      apply Nat.eqb_eq in Hlast. cbn in Hn.
      assert (rest = []) as -> by (destruct rest; [reflexivity | cbn in Hn; lia]).
      bind_ok Hb. injection Hb as <-.
      eexists. split; [reflexivity|]. split.
      * constructor; [|constructor]. cbn. auto.
      * constructor; [exact I | constructor].
    + apply String.eqb_neq in Ho. bind_ok Hb. rename a into e.
      destruct (@build_element_shape _ _ _ _ E)
        as (Hc & i' & ra & [= <-] & Hra & He).
      cbn in Hn.
      destruct (IH n (S idx) _ _ (Nat.neq_succ_0 idx) ltac:(lia) Hb)
        as (els & -> & Hall & Hcs).
      exists (e :: els). rewrite <- app_assoc. split; [reflexivity|]. split.
      * constructor; [|exact Hall].
        destruct e as [| |j|p]; try contradiction; cbn.
        -- destruct He as (Hp & Hname & Hd & Hm). eauto 10.
        -- tauto.
      * constructor; assumption.
Qed.

Lemma build_loop_first (n : nat) (rest : list network_builder.descriptor)
  (d0 : network_builder.descriptor) (result : list element) :
  n = S (List.length rest) ->
  build_loop n 0 (d0 :: rest) [] None = Ok result ->
  exists f els,
    d0.(network_builder.type) = "inlet" /\
    d0.(network_builder.flow) = Some f /\
    let i := Inlet.mk d0.(network_builder.name) f.(network_builder.pressure)
               f.(network_builder.mass_flow_rate) f.(network_builder.density)
               f.(network_builder.temperature) in
    result = EInlet i :: els /\
    Forall2 (built_from i) rest els /\
    Forall computed els.
Proof.
  intros Hn Hb. cbn in Hb.
  destruct (String.eqb _ "inlet") eqn:Ht.
  - apply String.eqb_eq in Ht. cbn in Hb.
    destruct (network_builder.flow d0) as [f|] eqn:Hf; [cbn in Hb|discriminate].
    destruct (@build_loop_from_inlet _ rest n 1 _ _ ltac:(lia) ltac:(lia) Hb)
      as (els & -> & Hall & Hcs).
    exists f, els. auto.
  - destruct (String.eqb _ "outlet").
    + destruct (negb _); [discriminate|]. cbn in Hb. discriminate.
    + pose proof (build_element_needs_inlet np_interp float_pow d0 []) as Hne.
      destruct (build_element d0 [] None); [discriminate Hne | discriminate Hb].
Qed.

(** X5.  A network that [build_network] returns has the name of the
    specification and one element per descriptor, in the order of the
    descriptors.  Unless the specification is empty, its first descriptor is
    an inlet with a [flow] map, and the first element is the Inlet holding
    that descriptor's name and flow values.  Every later descriptor gives an
    Outlet for the type "outlet", a Pipe for "pipe" and a Junction for any
    other type, named after the descriptor; a Pipe has the inlet's density
    and mass flow rate, a Junction the inlet's density and its mass flow
    rate divided by [flow_splits] (1 when absent). *)
Theorem built_elements_correspond (inputs : network_builder.inputs_spec)
  (net : Network.t) :
  build_network inputs = Ok net ->
  net.(Network.name) = inputs.(network_builder.inputs_name) /\
  ((inputs.(network_builder.network) = [] /\
    net.(Network.network_list) = []) \/
   exists d0 rest f els,
     inputs.(network_builder.network) = d0 :: rest /\
     d0.(network_builder.type) = "inlet" /\
     d0.(network_builder.flow) = Some f /\
     let i := Inlet.mk d0.(network_builder.name) f.(network_builder.pressure)
                f.(network_builder.mass_flow_rate)
                f.(network_builder.density)
                f.(network_builder.temperature) in
     net.(Network.network_list) = EInlet i :: els /\
     Forall2 (built_from i) rest els).
Proof.
  unfold network_builder.build_network. intros Hb. bind_ok Hb.
  injection Hb as <-. split; [reflexivity|]. cbn [Network.network_list].
  destruct (network_builder.network inputs) as [|d0 rest].
  - left. cbn in E. injection E as <-. auto.
  - right. destruct (@build_loop_first _ rest d0 a eq_refl E)
      as (f & els & Ht & Hf & Hr & Hall & _).
    exists d0, rest, f, els. auto.
Qed.

(** Every element of a built network has its computed attributes assigned. *)
Lemma build_network_computed (inputs : network_builder.inputs_spec)
  (net : Network.t) :
  build_network inputs = Ok net ->
  Forall computed net.(Network.network_list).
Proof.
  unfold network_builder.build_network. intros Hb. bind_ok Hb.
  injection Hb as <-. cbn [Network.network_list].
  destruct (network_builder.network inputs) as [|d0 rest].
  - cbn in E. injection E as <-. constructor.
  - destruct (@build_loop_first _ rest d0 a eq_refl E)
      as (f & els & _ & _ & Hr & _ & Hcs).
    cbn zeta in Hr. subst a. constructor; [exact I | exact Hcs].
Qed.

End Built.

(** ** The outlet descriptor *)

Section TrailingOutlet.

Variable np_interp : float -> list float -> list float -> float.
Variable float_pow : float -> float -> float.

Abbreviation build_element :=
  (network_builder.build_element np_interp float_pow).
Abbreviation build_loop := (network_builder.build_loop np_interp float_pow).
Abbreviation build_network :=
  (network_builder.build_network np_interp float_pow).

Lemma build_loop_snoc (o : network_builder.descriptor)
  (pre : list network_builder.descriptor) :
  o.(network_builder.type) = "outlet" ->
  forall (n idx : nat) (network_list : list element)
         (inlet_plenum : option Inlet.t) (result : list element),
    n = idx + List.length pre ->
    build_loop (S n) idx (pre ++ [o]) network_list inlet_plenum = Ok result
    <->
    Forall (fun d => d.(network_builder.type) <> "outlet") pre /\
    exists l last,
      build_loop n idx pre network_list inlet_plenum = Ok l /\
      Py.last_item l = Ok last /\
      result = (l ++ [EOutlet (Outlet.mk o.(network_builder.name) last)])%list.
Proof.
  intros Ho. induction pre as [|d pre IH];
    intros n idx network_list inlet_plenum result Hn;
    cbn [app network_builder.build_loop].
  - rewrite Ho. cbn [String.eqb Ascii.eqb Bool.eqb andb].
    cbn in Hn. rewrite Nat.add_0_r in Hn. subst n.
    replace (S idx - 1) with idx by lia. rewrite Nat.eqb_refl. cbn [negb].
    split.
    + intros Hb. bind_ok Hb. injection Hb as <-. split; [constructor|eauto].
    + intros (_ & l & last & [= <-] & Hl & ->). rewrite Hl. reflexivity.
  - cbn [List.length] in Hn. rewrite Forall_cons_iff.
    destruct (String.eqb _ "outlet") eqn:Hd.
    + apply String.eqb_eq in Hd. rewrite Hd.
      cbn [String.eqb Ascii.eqb Bool.eqb andb].
      assert ((idx =? S n - 1) = false) as -> by (apply Nat.eqb_neq; lia).
      cbn [negb]. split; [discriminate | intros [[Hne _] _]; congruence].
    + apply String.eqb_neq in Hd.
      destruct (String.eqb _ "inlet").
      * destruct (negb (idx =? 0)).
        -- split; [discriminate | intros (_ & ? & ? & ? & _); discriminate].
        -- destruct (Py.key_of _ _); cbn [Py.bind].
           ++ rewrite IH by lia. tauto.
           ++ split; [discriminate | intros (_ & ? & ? & ? & _); discriminate].
      * destruct (build_element _ _ _); cbn [Py.bind].
        -- rewrite IH by lia. tauto.
        -- split; [discriminate | intros (_ & ? & ? & ? & _); discriminate].
Qed.

(** X6.  The outlet descriptor only closes the list.  A specification that
    ends in an outlet descriptor is built exactly when no earlier descriptor
    is an outlet and the specification without the last descriptor is built
    and gives at least one element; the network is then that of the shorter
    specification followed by one Outlet, which has the descriptor's name and
    the last element built before it for [last_node]. *)
Theorem outlet_is_optional (name : string)
  (pre : list network_builder.descriptor) (o : network_builder.descriptor)
  (net : Network.t) :
  o.(network_builder.type) = "outlet" ->
  build_network (network_builder.Build_inputs_spec name (pre ++ [o])) = Ok net
  <->
  Forall (fun d => d.(network_builder.type) <> "outlet") pre /\
  exists l last,
    build_network (network_builder.Build_inputs_spec name pre)
    = Ok (Network.mk name l) /\
    Py.last_item l = Ok last /\
    net = Network.mk name
            (l ++ [EOutlet (Outlet.mk o.(network_builder.name) last)]).
Proof.
  intros Ho. unfold network_builder.build_network.
  cbn [network_builder.network network_builder.inputs_name].
  rewrite length_app. cbn [List.length]. rewrite Nat.add_1_r.
  split.
  - intros Hb. bind_ok Hb. injection Hb as <-.
    apply (@build_loop_snoc o pre Ho (List.length pre) 0 [] None a eq_refl)
      in E.
    destruct E as (Hno & l & last & Hl & Hlast & ->).
    split; [exact Hno|]. exists l, last. rewrite Hl. auto.
  - intros (Hno & l & last & Hb & Hlast & ->). bind_ok Hb. injection Hb as <-.
    assert (build_loop (S (List.length pre)) 0 (pre ++ [o]) [] None
            = Ok (a ++ [EOutlet (Outlet.mk o.(network_builder.name) last)])%list)
      as ->; [|reflexivity].
    apply (@build_loop_snoc o pre Ho (List.length pre) 0 [] None);
      [reflexivity|].
    split; [exact Hno|]. exists a, last. auto.
Qed.

End TrailingOutlet.

(** ** The rows of the summary *)

Section Summary.

Variable np_interp : float -> list float -> list float -> float.
Variable float_pow : float -> float -> float.

Abbreviation build_network :=
  (network_builder.build_network np_interp float_pow).

Ltac in_list := repeat first [left; reflexivity | right].

Ltac row_cells :=
  repeat first
    [ apply Forall2_nil
    | apply Forall2_cons;
      [split; first [discriminate | reflexivity | intros _; reflexivity]|] ].

Lemma summary_row_of_computed (self : Network.t) (comp : element) :
  computed comp ->
  let (cols, vals) := Network.summary_row self comp in
  incl cols (Network._column_order_with_type self) /\
  Forall2 (fun c v => v = CNone <-> c = "cumulative_dp") cols vals.
Proof.
  intros Hc. destruct comp as [i|o|j|p].
  - destruct i. cbv -[incl In]. split.
    + repeat (apply incl_cons; [in_list|]). apply incl_nil_l.
    + row_cells.
  - destruct o. cbv -[incl In]. split.
    + repeat (apply incl_cons; [in_list|]). apply incl_nil_l.
    + row_cells.
  - destruct j as [? ? ? ? ? ? v dl pd p0 p1]. cbn in Hc.
    destruct Hc as (Hv & Hdl & Hpd & Hp0 & Hp1).
    destruct v; [|contradiction]. destruct dl; [|contradiction].
    destruct pd; [|contradiction]. destruct p0; [|contradiction].
    destruct p1; [|contradiction].
    cbv -[incl In]. split.
    + repeat (apply incl_cons; [in_list|]). apply incl_nil_l.
    + row_cells.
  - destruct p as [? ? ? ? ? ? ? ? ? ? ? ? ? vi vo vr dl dg da pd p0 p1].
    cbn in Hc.
    destruct Hc as (Hvi & Hvo & Hvr & Hdl & Hdg & Hda & Hpd & Hp0 & Hp1).
    destruct vi; [|contradiction]. destruct vo; [|contradiction].
    destruct vr; [|contradiction]. destruct dl; [|contradiction].
    destruct dg; [|contradiction]. destruct da; [|contradiction].
    destruct pd; [|contradiction]. destruct p0; [|contradiction].
    destruct p1; [|contradiction].
    cbv -[incl In]. split.
    + repeat (apply incl_cons; [in_list|]). apply incl_nil_l.
    + row_cells.
Qed.

(** X12.  For every element of a network that [build_network] returns, the
    row that [create_summary_df] writes names only columns of the frame, has
    one value per column, and its value is None in the column
    "cumulative_dp" and in no other: every other column of the element's
    kind, the type column included, gets a string or a number. *)
Theorem summary_row_filled (inputs : network_builder.inputs_spec)
  (net : Network.t) (comp : element) :
  build_network inputs = Ok net ->
  In comp net.(Network.network_list) ->
  let (cols, vals) := Network.summary_row net comp in
  incl cols (Network._column_order_with_type net) /\
  Forall2 (fun c v => v = CNone <-> c = "cumulative_dp") cols vals.
Proof.
  intros Hb Hin. apply summary_row_of_computed.
  pose proof (build_network_computed np_interp float_pow inputs Hb) as Hall.
  rewrite Forall_forall in Hall. now apply Hall.
Qed.

End Summary.

(** ** What a descriptor has to provide *)

Lemma getitem_inv {V : Type} (d : dict V) (k : string) (v : V) :
  Py.getitem d k = Ok v -> Py.get d k = Some v.
Proof. unfold Py.getitem. destruct (Py.get d k); congruence. Qed.

Section Required.

Variable np_interp : float -> list float -> list float -> float.
Variable float_pow : float -> float -> float.

Abbreviation build_element :=
  (network_builder.build_element np_interp float_pow).
Abbreviation build_loop := (network_builder.build_loop np_interp float_pow).
Abbreviation build_network :=
  (network_builder.build_network np_interp float_pow).

Lemma build_element_requires (sample_case : network_builder.descriptor)
  (network_list : list element) (inlet_plenum : option Inlet.t)
  (network_obj : element) :
  build_element sample_case network_list inlet_plenum = Ok network_obj ->
  has_required_entries sample_case.
Proof.
  unfold network_builder.build_element, has_required_entries. intros Hb.
  bind_ok Hb. rename a into m.
  destruct (@materialize_inv _ _ _ _ E)
    as (G & L & g & l & HG & HL & Hg & Hl & Hgk & Hlk & _ & _ & Hgo).
  rewrite HG, HL.
  bind_ok Hb. apply getitem_inv in E0. rewrite Hg in E0. injection E0 as <-.
  destruct (network_builder.ref_area sample_case) as [ra|];
    [cbn [Py.key_of Py.bind] in Hb|discriminate].
  bind_ok Hb. cbn zeta in Hb.
  assert (forall k v, Py.getitem g k = Ok v -> In k (map fst G)) as HinG.
  { intros k v Hk. apply getitem_inv in Hk. apply Hgk. congruence. }
  split; [eapply HinG; eassumption|].
  destruct (String.eqb _ "pipe").
  - do 3 bind_ok Hb.
    bind_ok Hb. apply getitem_inv in E4. rewrite Hl in E4. injection E4 as <-.
    do 13 bind_ok Hb.
    assert (forall k v, Py.getitem l k = Ok v -> In k (map fst L)) as HinL.
    { intros k v Hk. apply getitem_inv in Hk. apply Hlk. congruence. }
    split; [|split].
    + repeat (apply incl_cons; [eapply HinG; eassumption|]). apply incl_nil_l.
    + eapply HinL; eassumption.
    + match goal with
      | Hs : Py.as_str ?x = Ok ?s,
        Hx : Py.getitem g "flow_direction" = Ok ?x,
        Hn : Pipe.new _ _ _ _ _ _ _ _ _ _ _ ?s _ _ = Ok _ |- _ =>
          destruct x; try discriminate Hs; injection Hs as <-;
          apply getitem_inv in Hx;
          destruct (Hgo _ _ Hx) as (spec & Hin & Hev);
          apply Pipe_new_direction in Hn; destruct Hn as (sign & Hsign)
      end.
      unfold entry_value, passes_through in Hev.
      assert (spec = VStr s) as ->
        by (destruct spec; cbn in Hev; congruence).
      eauto.
  - bind_ok Hb. bind_ok Hb.
    bind_ok Hb. apply getitem_inv in E3. rewrite Hl in E3. injection E3 as <-.
    bind_ok Hb. apply getitem_inv in E3. apply Hlk. congruence.
Qed.

Lemma build_loop_requires (rest : list network_builder.descriptor) :
  forall (n idx : nat) (network_list result : list element)
         (inlet_plenum : option Inlet.t),
    idx + List.length rest = n ->
    build_loop n idx rest network_list inlet_plenum = Ok result ->
    Forall (fun d =>
              d.(network_builder.type) <> "inlet" ->
              d.(network_builder.type) <> "outlet" -> has_required_entries d) rest.
Proof.
  induction rest as [|d rest IH];
    intros n idx network_list result inlet_plenum Hn Hb; [constructor|].
  cbn in Hb, Hn. destruct (String.eqb _ "inlet") eqn:Hi.
  - apply String.eqb_eq in Hi.
    destruct (negb _); [discriminate|]. bind_ok Hb.
    constructor; [congruence|]. eapply IH; [|exact Hb]. lia.
  - destruct (String.eqb _ "outlet") eqn:Ho.
    + apply String.eqb_eq in Ho.
      destruct (idx =? n - 1) eqn:Hlast; [|discriminate].
      apply Nat.eqb_eq in Hlast.
      assert (rest = []) as -> by (destruct rest; [reflexivity | cbn in Hn; lia]).
      constructor; [congruence | constructor].
    + bind_ok Hb. constructor.
      * intros _ _. eapply build_element_requires. exact E.
      * eapply IH; [|exact Hb]. lia.
Qed.

(** X14.  In a specification that [build_network] builds, every descriptor
    that is neither an inlet nor an outlet has a [geom] map, a [loss] map
    and a [ref_area] map whose station is a key of [geom].  A pipe
    descriptor has the [geom] keys "length", "flow_direction",
    "hydraulic_diameter", "inlet_area" and "outlet_area" and the [loss] key
    "friction", and its "flow_direction" entry is a string that reads up,
    down or side once stripped and lowered; any other descriptor has the
    [loss] key "form". *)
Theorem required_entries (inputs : network_builder.inputs_spec)
  (net : Network.t) (d : network_builder.descriptor) :
  build_network inputs = Ok net ->
  In d inputs.(network_builder.network) ->
  d.(network_builder.type) <> "inlet" ->
  d.(network_builder.type) <> "outlet" ->
  has_required_entries d.
Proof.
  unfold network_builder.build_network. intros Hb Hin Hi Ho. bind_ok Hb.
  pose proof (@build_loop_requires _ _ 0 _ _ _ eq_refl E) as Hall.
  rewrite Forall_forall in Hall. now apply Hall.
Qed.

End Required.

(** ** The hydraulic diameters *)

(** X15.  The hydraulic-diameter functions test nothing: for all floats
    none of them raises ValueError.  [hydraulic_diameter_generic],
    [hydraulic_diameter_rect_slot] and [hydraulic_diameter_capsule_slot]
    divide by the wetted perimeter as it comes (P_w, a + b, 2 L + pi b) and
    raise ZeroDivisionError exactly when it is zero, the capsule slot
    provided b ** 2 does not overflow; a slot of width 0 and length 0, whose
    area [area_capsule_slot] returns, has no hydraulic diameter. *)
Theorem hydraulic_diameters_divide_unguarded
  (float_pow : float -> float -> float) (A P_w a b L : float) :
  is_ValueError (pdrop_funcs.hydraulic_diameter_generic A P_w) = false /\
  is_ValueError (pdrop_funcs.hydraulic_diameter_rect_slot a b) = false /\
  is_ValueError (pdrop_funcs.hydraulic_diameter_capsule_slot float_pow b L) = false /\
  is_ZeroDivisionError (pdrop_funcs.hydraulic_diameter_generic A P_w)
  = is_zero P_w /\
  is_ZeroDivisionError (pdrop_funcs.hydraulic_diameter_rect_slot a b)
  = is_zero (a + b) /\
  is_ZeroDivisionError (pdrop_funcs.hydraulic_diameter_capsule_slot float_pow b L)
  = is_ok (Py.pow2 float_pow b) && is_zero (2.0 * L + pi * b) /\
  is_ok (pdrop_funcs.area_capsule_slot Example.float_pow 0 0) = true /\
  is_ZeroDivisionError
    (pdrop_funcs.hydraulic_diameter_capsule_slot Example.float_pow 0 0)
  = true.
Proof.
  unfold pdrop_funcs.hydraulic_diameter_generic,
    pdrop_funcs.hydraulic_diameter_rect_slot,
    pdrop_funcs.hydraulic_diameter_capsule_slot, Py.div.
  repeat match goal with |- _ /\ _ => split end.
  - destruct (is_zero P_w); reflexivity.
  - destruct (is_zero (a + b)); reflexivity.
  - destruct (pow2_cases float_pow b) as [-> | ->]; [cbn|reflexivity].
    destruct (is_zero _); reflexivity.
  - destruct (is_zero P_w); reflexivity.
  - destruct (is_zero (a + b)); reflexivity.
  - destruct (pow2_cases float_pow b) as [-> | ->]; [cbn|reflexivity].
    destruct (is_zero _); reflexivity.
  - vm_compute; reflexivity.
  - vm_compute; reflexivity.
Qed.

(** ** Further instances on concrete specifications *)

Lemma materialized_values_witness :
  exists (m : dict (dict value)) (G L g l : dict value),
    network_builder.materialize Example.np_interp Example.float_pow
      Example.junction_expansion = Ok m /\
    Example.junction_expansion.(network_builder.geom) = Some G /\
    Example.junction_expansion.(network_builder.loss) = Some L /\
    Py.get m "geom" = Some g /\
    Py.get m "loss" = Some l /\
    (forall k, In k (map fst G) <-> Py.get g k <> None) /\
    (forall k, In k (map fst L) <-> Py.get l k <> None) /\
    (NoDup (map fst G) ->
     forall key spec, In (key, spec) G ->
     exists x, Py.get g key = Some x /\
               entry_value Example.np_interp Example.float_pow
                 "geom" key spec x) /\
    (NoDup (map fst L) ->
     forall key spec, In (key, spec) L ->
     exists x, Py.get l key = Some x /\
               entry_value Example.np_interp Example.float_pow
                 "loss" key spec x).
Proof.
  destruct (network_builder.materialize _ _ _) as [m|err] eqn:Hm;
    [|vm_compute in Hm; discriminate].
  destruct (@materialized_values Example.np_interp Example.float_pow _ _ Hm)
    as (G & L & g & l & H).
  exists m, G, L, g, l. split; [reflexivity | exact H].
Defined.

Lemma built_elements_correspond_witness :
  exists net : Network.t,
    network_builder.build_network Example.np_interp Example.float_pow
      Example.chain = Ok net /\
    net.(Network.name) = "chain" /\
    exists els,
      net.(Network.network_list) = EInlet Example.plenum :: els /\
      Forall2 (built_from Example.plenum)
        [Example.pipe_side; Example.junction_expansion; Example.outlet_plenum]
        els.
Proof.
  destruct (network_builder.build_network _ _ _) as [net|err] eqn:Hb;
    [|vm_compute in Hb; discriminate].
  destruct (@built_elements_correspond Example.np_interp Example.float_pow
              _ _ Hb) as (Hname & [[Hnil _] | Hels]).
  - discriminate Hnil.
  - destruct Hels as (d0 & rest & f & els & Hnet & _ & Hf & Hl & Hall).
    injection Hnet as <- <-. injection Hf as <-.
    exists net. split; [reflexivity|]. split; [exact Hname|].
    exists els. split; [exact Hl | exact Hall].
Defined.

Lemma outlet_is_optional_witness :
  exists (net : Network.t) (l : list element) (last : element),
    network_builder.build_network Example.np_interp Example.float_pow
      {| network_builder.inputs_name := "chain";
         network_builder.network :=
           [Example.inlet_500kPa; Example.pipe_side;
            Example.junction_expansion] ++ [Example.outlet_plenum] |}
    = Ok net /\
    network_builder.build_network Example.np_interp Example.float_pow
      {| network_builder.inputs_name := "chain";
         network_builder.network :=
           [Example.inlet_500kPa; Example.pipe_side;
            Example.junction_expansion] |}
    = Ok (Network.mk "chain" l) /\
    Py.last_item l = Ok last /\
    net = Network.mk "chain" (l ++ [EOutlet (Outlet.mk "outlet" last)]).
Proof.
  destruct (network_builder.build_network _ _
              {| network_builder.inputs_name := "chain";
                 network_builder.network := _ ++ _ |})
    as [net|err] eqn:Hb; [|vm_compute in Hb; discriminate].
  destruct (proj1 (@outlet_is_optional Example.np_interp Example.float_pow
                     "chain" _ Example.outlet_plenum net eq_refl) Hb)
    as (_ & l & last & Hl & Hlast & Hnet).
  exists net, l, last. auto.
Defined.

Lemma summary_row_filled_witness :
  exists (net : Network.t) (comp : element),
    network_builder.build_network Example.np_interp Example.float_pow
      Example.chain = Ok net /\
    nth_error net.(Network.network_list) 1 = Some comp /\
    comp_kind comp = "pipe" /\
    let (cols, vals) := Network.summary_row net comp in
    incl cols (Network._column_order_with_type net) /\
    Forall2 (fun c v => v = CNone <-> c = "cumulative_dp") cols vals.
Proof.
  destruct (network_builder.build_network _ _ _) as [net|err] eqn:Hb;
    [|vm_compute in Hb; discriminate].
  pose proof Hb as Hv. vm_compute in Hv. injection Hv as Hv. subst net.
  do 2 eexists. split; [reflexivity|]. split; [reflexivity|].
  split; [reflexivity|].
  apply (@summary_row_filled Example.np_interp Example.float_pow _ _ _ Hb).
  right; left; reflexivity.
Defined.

Lemma required_entries_witness :
  exists net : Network.t,
    network_builder.build_network Example.np_interp Example.float_pow
      Example.chain = Ok net /\
    has_required_entries Example.pipe_side /\
    has_required_entries Example.junction_expansion.
Proof.
  destruct (network_builder.build_network _ _ _) as [net|err] eqn:Hb;
    [|vm_compute in Hb; discriminate].
  exists net. split; [reflexivity|]. split.
  - apply (@required_entries Example.np_interp Example.float_pow _ _ _ Hb).
    + right; left; reflexivity.
    + discriminate.
    + discriminate.
  - apply (@required_entries Example.np_interp Example.float_pow _ _ _ Hb).
    + right; right; left; reflexivity.
    + discriminate.
    + discriminate.
Defined.
